(** * crudManager: a shallow embedding of [app/scripts/services/crudManager.js]

    The service is a façade between a declarative entity configuration and a
    REST client.  Every operation creates a deferred, asks [getConfig] for the
    configuration, chains one or two [then] callbacks on the promise it gets,
    and returns the deferred's promise.

    The embedding keeps that shape.  JavaScript objects used as maps are
    [gmap]s from the names of their own properties to the values, a property
    read and the operator [in] going on to [Object.prototype]; promises
    are represented by the state they are in once the event loop has drained
    ([Outcome]), and the mutable things the callbacks touch (the shared
    configuration object, the Restangular singleton, the operation's own
    deferred and closure variables) are threaded explicitly through a
    [Frame].  An operation is a function from the world it is called in to
    the final state of the promise it returns and the world it leaves, run
    on its own from the call to the last callback. *)

From stdpp Require Import gmap strings list fin_maps.
From Stdlib Require Import ZArith.

Open Scope string_scope.
Open Scope Z_scope.
Open Scope list_scope.

(** ** JavaScript values *)

(** The values that occur in configuration attributes, record properties,
    identifiers, headers and rejection reasons.  Numbers are the integral ones
    (ids, page sizes, counts), [JNum n] being the Number that prints with the
    digits of [n]; an object or array that is only passed around is a
    reference [JRef], compared by identity as [===] does; [JNative name] is
    the built-in that [Object.prototype] holds under [name]. *)
Inductive JsVal : Type :=
  | JUndefined
  | JNull
  | JBool (b : bool)
  | JNum (n : Z)
  | JStr (s : string)
  | JRef (addr : nat)
  | JNative (name : string).

Global Instance JsVal_eq_dec : EqDecision JsVal.
Proof. solve_decision. Defined.

(** [typeof v] *)
Definition typeof (v : JsVal) : string :=
  match v with
  | JUndefined => "undefined"
  | JNull => "object"
  | JBool _ => "boolean"
  | JNum _ => "number"
  | JStr _ => "string"
  | JRef _ => "object"
  | JNative name => if String.eqb name "__proto__" then "object" else "function"
  end.

(** ToBoolean, as applied by [if], [!] and [||]. *)
Definition truthy (v : JsVal) : bool :=
  match v with
  | JUndefined | JNull => false
  | JBool b => b
  | JNum n => negb (n =? 0)
  | JStr s => negb (String.eqb s "")
  | JRef _ => true
  | JNative _ => true
  end.

(** [a || b] *)
Definition js_or (a b : JsVal) : JsVal := if truthy a then a else b.

(** [a === b] *)
Definition strict_equals (a b : JsVal) : bool := bool_decide (a = b).

(** [l.length] of an array *)
Definition js_length {A} (l : list A) : JsVal := JNum (Z.of_nat (length l)).

(** [l.indexOf(x)]: the first index whose element is [=== x], or [-1]. *)
Fixpoint indexOf_from (l : list JsVal) (x : JsVal) (i : Z) : Z :=
  match l with
  | [] => -1
  | y :: l' => if strict_equals y x then i else indexOf_from l' x (i + 1)
  end.

Definition indexOf (l : list JsVal) (x : JsVal) : Z := indexOf_from l x 0.

(** The first decimal digit of a positive integer. *)
Fixpoint leading_digit_from (fuel : nat) (n : Z) : Z :=
  match fuel with
  | O => n
  | S fuel' => if n <? 10 then n else leading_digit_from fuel' (n / 10)
  end.

Definition leading_digit (n : Z) : Z := leading_digit_from (Z.to_nat (Z.log2 n)) n.

(** [parseInt] on an integral Number.  The Number is first turned into a
    string: below [10^21] that is its plain decimal, which reads back as the
    number itself; from [10^21] on it is the exponent notation
    ([1e+21], [2.5e+22]), of which [parseInt] reads the digit in front. *)
Definition parseInt (n : Z) : Z :=
  if Z.abs n <? 10 ^ 21 then n else Z.sgn n * leading_digit (Z.abs n).

(** A plain object: the names of its own properties and their values. *)
Abbreviation JsObject := (gmap string JsVal).

(** What every plain object inherits: the members of [Object.prototype]. *)
Definition Object_prototype : gmap string JsVal :=
  list_to_map
    ((λ name, (name, JNative name))
       <$> ["constructor"; "toString"; "toLocaleString"; "valueOf";
            "hasOwnProperty"; "isPrototypeOf"; "propertyIsEnumerable";
            "__defineGetter__"; "__defineSetter__";
            "__lookupGetter__"; "__lookupSetter__"; "__proto__"]).

(** [o[k]] and [o.k]: an own property, else the inherited one, else
    [undefined]. *)
Definition prop (o : JsObject) (k : string) : JsVal :=
  match o !! k with
  | Some v => v
  | None => default JUndefined (Object_prototype !! k)
  end.

(** [angular.forEach(obj, iterator, context)] on a plain object: the iterator
    is called as [iterator(value, key)] on every own property.  [S] is the
    state the iterator mutates.  (The order of the calls is that of the
    key enumeration; the two iterators of this service give the same result
    in every order, see [forEach_mergeValue] and [filterEditionFields_lookup].) *)
Definition forEach {A S} (obj : gmap string A) (iterator : A → string → S → S)
    (s : S) : S :=
  map_fold (λ key value acc, iterator value key acc) s obj.

(** ** Data model *)

(** FieldConfig: the attributes of a field, among them the optional [edition]
    tag and the [value] slot. *)
Abbreviation FieldConfig := (gmap string JsVal).

(** Entity instance: the record fetched from or sent to the REST endpoint,
    with every own property the object handed over has (the properties of
    the record and whatever members the REST client has added to it). *)
Abbreviation Entity := (gmap string JsVal).

Record EntityConfig : Type := mkEntityConfig {
  label : JsVal;
  fields : gmap string FieldConfig
}.

(** What [config.entities[entityName]] evaluates to when it is not
    undefined: an entity of the mapping, or a member the mapping inherits
    from [Object.prototype]. *)
Inductive EntityRef : Type :=
  | Configured (ec : EntityConfig)
  | Inherited (member : JsVal).

(** [name in entities] holds when [entity_lookup entities name] is [Some _],
    which is then [entities[name]]: the operator [in] and the property read
    both follow the prototype chain. *)
Definition entity_lookup (entities : gmap string EntityConfig) (name : string)
    : option EntityRef :=
  match entities !! name with
  | Some ec => Some (Configured ec)
  | None => Inherited <$> Object_prototype !! name
  end.

(** [entityConfig.fields] and [entityConfig.label]; the built-ins of
    [Object.prototype] have neither property. *)
Definition ref_fields (entityConfig : EntityRef) : option (gmap string FieldConfig) :=
  match entityConfig with
  | Configured ec => Some (fields ec)
  | Inherited _ => None
  end.

Definition ref_label (entityConfig : EntityRef) : JsVal :=
  match entityConfig with
  | Configured ec => label ec
  | Inherited _ => JUndefined
  end.

Record GlobalConfig : Type := mkGlobalConfig {
  baseApiUrl : JsVal;
  per_page : JsVal
}.

Record Config : Type := mkConfig {
  global : GlobalConfig;
  entities : gmap string EntityConfig
}.

Global Instance EntityConfig_eq_dec : EqDecision EntityConfig.
Proof. solve_decision. Defined.
Global Instance EntityRef_eq_dec : EqDecision EntityRef.
Proof. solve_decision. Defined.
Global Instance GlobalConfig_eq_dec : EqDecision GlobalConfig.
Proof. solve_decision. Defined.
Global Instance Config_eq_dec : EqDecision Config.
Proof. solve_decision. Defined.

(** ** Promises *)

(** The state of a promise once nothing more is going to happen to it. *)
Inductive Outcome (A : Type) : Type :=
  | Pending
  | Resolved (a : A)
  | Rejected (reason : JsVal).
Arguments Pending {A}.
Arguments Resolved {A} a.
Arguments Rejected {A} reason.

Definition is_rejected {A} (p : Outcome A) : bool :=
  match p with Rejected _ => true | _ => false end.

Definition is_resolved {A} (p : Outcome A) : bool :=
  match p with Resolved _ => true | _ => false end.

(** ** The REST client *)

(** What Restangular is asked to do. *)
Inductive Call : Type :=
  | GetOne (route : string) (id : JsVal)
      (* one(route, id).get() *)
  | GetList (route : string) (page : Z) (perPage : JsVal)
      (* all(route).getList({page: page, per_page: perPage}) *)
  | Post (route : string) (element : Entity)
      (* restangularizeElement(null, element, route).post() *)
  | Put (route : string) (element : Entity)
      (* restangularizeElement(null, element, route).put() *)
  | Remove (route : string) (id : JsVal).
      (* one(route, id).remove() *)

(** A call together with the singleton's settings at the time it is issued. *)
Record Request : Type := mkRequest {
  req_baseUrl : JsVal;
  req_fullResponse : bool;
  req_call : Call
}.

(** A full response: the body and the header accessor. *)
Record Response (A : Type) : Type := mkResponse {
  data : A;
  headers : string → JsVal
}.
Arguments mkResponse {A} data headers.
Arguments data {A} r.
Arguments headers {A} r _.

(** The REST endpoint behind Restangular: the promise each request ends in. *)
Record Backend : Type := mkBackend {
  answerGet : Request → Outcome (Response Entity);
  answerGetList : Request → Outcome (Response (list Entity));
  answerPost : Request → Outcome JsVal;
  answerPut : Request → Outcome JsVal;
  answerRemove : Request → Outcome JsVal
}.

(** ** The world the service runs in *)

(** Modelled from the spec: the [getConfig] service
    ([scripts/services/getConfig], not among the sources).  The configuration
    is loaded once; [getConfig()] returns a promise for that one configuration
    object, so [configPromise] holds the object every caller shares.

    [baseUrl] and [fullResponse] are the settings of the Restangular
    singleton, [sent] the requests issued so far, oldest first. *)
Record World : Type := mkWorld {
  configPromise : Outcome Config;
  baseUrl : JsVal;
  fullResponse : bool;
  sent : list Request
}.

Definition getConfig (w : World) : Outcome Config := configPromise w.

(** What a running operation can see and change: the world, its closure
    variables [L], and its deferred. *)
Record Frame (L R : Type) : Type := mkFrame {
  world : World;
  locals : L;
  deferred : Outcome R
}.
Arguments mkFrame {L R} world locals deferred.
Arguments world {L R} f.
Arguments locals {L R} f.
Arguments deferred {L R} f.

Definition with_world {L R} (f : World → World) (s : Frame L R) : Frame L R :=
  mkFrame (f (world s)) (locals s) (deferred s).

Definition set_locals {L R} (l : L) (s : Frame L R) : Frame L R :=
  mkFrame (world s) l (deferred s).

(** [$q.defer()] *)
Definition defer {L R} (w : World) (l : L) : Frame L R := mkFrame w l Pending.

(** [deferred.resolve(v)] and [deferred.reject(r)]: a settled deferred ignores
    them. *)
Definition deferred_resolve {L R} (v : R) (s : Frame L R) : Frame L R :=
  match deferred s with
  | Pending => mkFrame (world s) (locals s) (Resolved v)
  | _ => s
  end.

Definition deferred_reject {L R} (r : JsVal) (s : Frame L R) : Frame L R :=
  match deferred s with
  | Pending => mkFrame (world s) (locals s) (Rejected r)
  | _ => s
  end.

(** A callback runs on the frame and its return value settles the promise
    derived by [then]: a returned promise is adopted, any other value
    resolves it. *)
Definition Callback (L R A B : Type) : Type :=
  A → Frame L R → Outcome B * Frame L R.

(** [p.then(onFulfilled, onRejected)] *)
Definition then_ {L R A B} (p : Outcome A)
    (onFulfilled : Callback L R A B) (onRejected : Callback L R JsVal B)
    (s : Frame L R) : Outcome B * Frame L R :=
  match p with
  | Pending => (Pending, s)
  | Resolved a => onFulfilled a s
  | Rejected r => onRejected r s
  end.

(** [p.then(onFulfilled)]: a rejection passes through to the derived promise. *)
Definition then1 {L R A B} (p : Outcome A) (onFulfilled : Callback L R A B)
    (s : Frame L R) : Outcome B * Frame L R :=
  then_ p onFulfilled (λ r s, (Rejected r, s)) s.

(** [return $q.reject(r)] *)
Definition q_reject {L R B} (r : JsVal) (s : Frame L R) : Outcome B * Frame L R :=
  (Rejected r, s).

(** [deferred.resolve] and [deferred.reject] passed as callbacks. *)
Definition resolve_cb {L R} : Callback L R R unit :=
  λ v s, (Resolved (), deferred_resolve v s).

Definition reject_cb {L R} : Callback L R JsVal unit :=
  λ r s, (Resolved (), deferred_reject r s).

(** [Restangular.setBaseUrl(url)], [Restangular.setFullResponse(b)] *)
Definition setBaseUrl (url : JsVal) (w : World) : World :=
  mkWorld (configPromise w) url (fullResponse w) (sent w).

Definition setFullResponse (b : bool) (w : World) : World :=
  mkWorld (configPromise w) (baseUrl w) b (sent w).

Definition record_request (req : Request) (w : World) : World :=
  mkWorld (configPromise w) (baseUrl w) (fullResponse w) (sent w ++ [req]).

(** Issuing a call: the request carries the singleton's current settings. *)
Definition issue {L R A} (answer : Request → Outcome A) (c : Call)
    (s : Frame L R) : Outcome A * Frame L R :=
  let req := mkRequest (baseUrl (world s)) (fullResponse (world s)) c in
  (answer req, with_world (record_request req) s).

(** ['Entity ' + entityName + ' not found.'] *)
Definition not_found (entityName : string) : JsVal :=
  JStr ("Entity " ++ entityName ++ " not found.").

(** The reason a callback's derived promise is rejected with when the callback
    throws on reading a property of [undefined]. *)
Definition TypeError : JsVal := JStr "TypeError".

(** ** The operations *)

(** What the promises of [getOne], [getEditionFields] and [getAll] resolve
    with.  The [fields] of a result is the configuration's own object; the
    record holds its content at the time the deferred is resolved, [None]
    when it is undefined. *)
Record OneResult : Type := mkOneResult {
  one_fields : option (gmap string FieldConfig);
  one_entityLabel : JsVal;
  one_entityName : string;
  one_entityId : JsVal
}.

Record EditionResult : Type := mkEditionResult {
  edition_fields : gmap string FieldConfig;
  edition_entityLabel : JsVal;
  edition_entityName : string
}.

Record AllResult : Type := mkAllResult {
  all_entityName : string;
  all_entityConfig : option EntityRef;   (* [None]: the variable is still undefined *)
  all_rawItems : list Entity;
  all_currentPage : Z;
  all_perPage : JsVal;
  all_totalItems : JsVal
}.

(** [fields[fieldName].value = v], on the fields object [fields]. *)
Definition set_value (fieldName : string) (v : JsVal)
    (fields : gmap string FieldConfig) : gmap string FieldConfig :=
  alter (λ field, <["value" := v]> field) fieldName fields.

(** The iterator of [getOne] (lines 42-50); it mutates [fields] itself. *)
Definition mergeValue (entity : Entity) (field : FieldConfig) (fieldName : string)
    (fields : gmap string FieldConfig) : gmap string FieldConfig :=
  if bool_decide (typeof (prop field "edition") = "undefined") then fields
  else if bool_decide (typeof (prop entity fieldName) ≠ "undefined")
       then set_value fieldName (prop entity fieldName) fields
       else fields.

(** [entityConfig] refers to the object stored under [entityName] in the
    shared configuration, so the writes of the iterator land there: the
    configuration object is updated in place. *)
Definition store_fields (entityName : string) (fs : gmap string FieldConfig)
    (w : World) : World :=
  match configPromise w with
  | Resolved config =>
      mkWorld
        (Resolved (mkConfig (global config)
           (alter (λ ec, mkEntityConfig (label ec) fs) entityName (entities config))))
        (baseUrl w) (fullResponse w) (sent w)
  | _ => w
  end.

Section Operations.

Variable backend : Backend.

(** Lines 17-61.  [entityName in config.entities] followed by
    [config.entities[entityName]] is [entity_lookup].  The closure variable
    [entityConfig] starts undefined; the first callback makes it refer to
    what the look-up found, the second one reads the fields through it,
    writes the values into them ([store_fields]) and resolves the deferred
    with them.  When [entityConfig.fields] is undefined, [angular.forEach]
    makes no call. *)
Definition getOne (entityName : string) (entityId : JsVal) (w : World)
    : Outcome OneResult * World :=
  let s : Frame (option EntityRef) OneResult := defer w None in
  let '(p, s) :=
    then1 (getConfig w)
      (λ config s,
         match entity_lookup (entities config) entityName with
         | None => q_reject (not_found entityName) s
         | Some found =>
             let s := set_locals (Some found) s in
             let s := with_world (setBaseUrl (baseApiUrl (global config))) s in
             let s := with_world (setFullResponse true) s in
             issue (answerGet backend) (GetOne entityName entityId) s
         end) s in
  let '(_, s) :=
    then_ p
      (λ response s,
         match locals s with
         | None => (Rejected TypeError, s)
         | Some entityConfig =>
             let entity := data response in
             match ref_fields entityConfig with
             | Some fields0 =>
                 let fields' := forEach fields0 (mergeValue entity) fields0 in
                 let s := with_world (store_fields entityName fields') s in
                 (Resolved (),
                  deferred_resolve
                    (mkOneResult (Some fields') (ref_label entityConfig)
                       entityName entityId) s)
             | None =>
                 (Resolved (),
                  deferred_resolve
                    (mkOneResult None (ref_label entityConfig)
                       entityName entityId) s)
             end
         end)
      reject_cb s in
  (deferred s, world s).

(** Lines 113-135.  [this] is the accumulator [filteredFields]. *)
Definition filterEditionFields (fields : gmap string FieldConfig)
    (filters : list JsVal) : gmap string FieldConfig :=
  let filteredFields : gmap string FieldConfig := ∅ in
  forEach fields
    (λ field fieldName this,
       if bool_decide (typeof (prop field "edition") = "undefined") then this
       else if negb (truthy (js_length filters)) then <[fieldName := field]> this
       else if bool_decide (indexOf filters (prop field "edition") ≠ -1)
            then <[fieldName := field]> this
            else this)
    filteredFields.

(** The optional [filterType] argument, [{String|Array}]. *)
Inductive FilterType : Type :=
  | NoFilter
  | FilterString (tag : string)
  | FilterArray (tags : list JsVal).

(** Lines 76-82. *)
Definition filters_of (filterType : FilterType) : list JsVal :=
  let filters := [] in
  match filterType with
  | NoFilter => filters
  | FilterString tag => filters ++ [JStr tag]
  | FilterArray tags => if truthy (js_length tags) then tags else filters
  end.

(** Lines 72-102.  The rejected promise returned by the success callback
    settles the promise derived by [then], which nothing listens to;
    [deferred.reject] is the error callback of [getConfig()] itself.  When
    [entityConfig.fields] is undefined, the [angular.forEach] of
    [filterEditionFields] makes no call, as on an object without
    properties. *)
Definition getEditionFields (entityName : string) (filterType : FilterType)
    (w : World) : Outcome EditionResult * World :=
  let filters := filters_of filterType in
  let s : Frame unit EditionResult := defer w () in
  let '(_, s) :=
    then_ (getConfig w)
      (λ config s,
         match entity_lookup (entities config) entityName with
         | None => q_reject (B := unit) (not_found entityName) s
         | Some entityConfig =>
             let fields' :=
               filterEditionFields (default ∅ (ref_fields entityConfig)) filters in
             (Resolved (),
              deferred_resolve
                (mkEditionResult fields' (ref_label entityConfig) entityName) s)
         end)
      reject_cb s in
  (deferred s, world s).

(** Lines 146-165. *)
Definition createOne (entityName : string) (entity : Entity) (w : World)
    : Outcome JsVal * World :=
  let s : Frame unit JsVal := defer w () in
  let '(p, s) :=
    then1 (getConfig w)
      (λ config s,
         match entity_lookup (entities config) entityName with
         | None => q_reject (not_found entityName) s
         | Some _ =>
             let s := with_world (setBaseUrl (baseApiUrl (global config))) s in
             issue (answerPost backend) (Post entityName entity) s
         end) s in
  let '(_, s) := then_ p resolve_cb reject_cb s in
  (deferred s, world s).

(** Lines 176-195. *)
Definition updateOne (entityName : string) (entity : Entity) (w : World)
    : Outcome JsVal * World :=
  let s : Frame unit JsVal := defer w () in
  let '(p, s) :=
    then1 (getConfig w)
      (λ config s,
         match entity_lookup (entities config) entityName with
         | None => q_reject (not_found entityName) s
         | Some _ =>
             let s := with_world (setBaseUrl (baseApiUrl (global config))) s in
             issue (answerPut backend) (Put entityName entity) s
         end) s in
  let '(_, s) := then_ p resolve_cb reject_cb s in
  (deferred s, world s).

(** Lines 207-221: no look-up of [entityName]. *)
Definition deleteOne (entityName : string) (entityId : JsVal) (w : World)
    : Outcome JsVal * World :=
  let s : Frame unit JsVal := defer w () in
  let '(p, s) :=
    then1 (getConfig w)
      (λ config s,
         let s := with_world (setBaseUrl (baseApiUrl (global config))) s in
         issue (answerRemove backend) (Remove entityName entityId) s) s in
  let '(_, s) := then_ p resolve_cb reject_cb s in
  (deferred s, world s).

(** Lines 233-271.  [page] is [None] when the argument is omitted; the
    closure variables [entityConfig] and [perPage] start undefined. *)
Definition getAll (entityName : string) (page : option Z) (w : World)
    : Outcome AllResult * World :=
  let s : Frame (option EntityRef * JsVal) AllResult :=
    defer w (None, JUndefined) in
  let page := match page with None => 1 | Some page => parseInt page end in
  let '(p, s) :=
    then1 (getConfig w)
      (λ config s,
         match entity_lookup (entities config) entityName with
         | None => q_reject (not_found entityName) s
         | Some found =>
             let perPage := js_or (per_page (global config)) (JNum 30) in
             let s := set_locals (Some found, perPage) s in
             let s := with_world (setBaseUrl (baseApiUrl (global config))) s in
             let s := with_world (setFullResponse true) s in
             issue (answerGetList backend) (GetList entityName page perPage) s
         end) s in
  let '(_, s) :=
    then_ p
      (λ response s,
         let '(entityConfig, perPage) := locals s in
         (Resolved (),
          deferred_resolve
            (mkAllResult entityName entityConfig (data response) page perPage
               (headers response "X-Count")) s))
      reject_cb s in
  (deferred s, world s).

End Operations.

(** ** Notions the properties are stated with *)

(** A field declares an [edition] tag: [typeof(field.edition)] is not
    ["undefined"]. *)
Definition has_edition (field : FieldConfig) : Prop :=
  prop field "edition" ≠ JUndefined.

Global Instance has_edition_dec field : Decision (has_edition field).
Proof. unfold has_edition. apply _. Defined.

(** A field after a record has been merged into it: the record's value goes
    into the [value] slot when the field is edition-tagged and the record
    defines a property under the field's name. *)
Definition merged (entity : Entity) (fieldName : string) (field : FieldConfig)
    : FieldConfig :=
  if decide (has_edition field ∧ prop entity fieldName ≠ JUndefined)
  then <["value" := prop entity fieldName]> field
  else field.

Definition merged_fields (entity : Entity) (fs : gmap string FieldConfig)
    : gmap string FieldConfig :=
  map_imap (λ fieldName field, Some (merged entity fieldName field)) fs.

(** The fields that declare an [edition] tag. *)
Definition edition_tagged (fs : gmap string FieldConfig) : gmap string FieldConfig :=
  filter (λ kv, has_edition kv.2) fs.

(** The fields whose [edition] tag is one of [tags]. *)
Definition tagged_with (tags : list JsVal) (fs : gmap string FieldConfig)
    : gmap string FieldConfig :=
  filter (λ kv, has_edition kv.2 ∧ prop kv.2 "edition" ∈ tags) fs.

(** A field, an entity and a configuration with every [value] slot left out:
    what remains is the part no record is ever written to. *)
Definition without_value (field : FieldConfig) : FieldConfig := delete "value" field.

Definition entity_frame (ec : EntityConfig) : EntityConfig :=
  mkEntityConfig (label ec) (without_value <$> fields ec).

Definition config_frame (config : Config) : Config :=
  mkConfig (global config) (entity_frame <$> entities config).

Definition promise_map {A B} (f : A → B) (p : Outcome A) : Outcome B :=
  match p with
  | Pending => Pending
  | Resolved a => Resolved (f a)
  | Rejected r => Rejected r
  end.

(** The world after an operation has set the base URL (and possibly the
    full-response flag) and issued [call]. *)
Definition after_request (url : JsVal) (full : bool) (call : Call) (w : World) : World :=
  mkWorld (configPromise w) url full (sent w ++ [mkRequest url full call]).

(** From [w] to [w'] either nothing has changed, or the configuration is
    loaded, the base URL has been set from it and exactly [call] has been
    issued, with that base URL. *)
Definition issues_only (call : Call) (w w' : World) : Prop :=
  w' = w
  ∨ ∃ config,
      getConfig w = Resolved config
      ∧ baseUrl w' = baseApiUrl (global config)
      ∧ sent w' = sent w ++ [mkRequest (baseApiUrl (global config)) (fullResponse w') call].

(** ** Sample data *)

(** The configuration of the specification's example: one entity [book]
    whose field [title] is editable and whose field [id] has no [edition]
    tag. *)
Definition book_entity : EntityConfig :=
  mkEntityConfig (JStr "Books")
    {[ "title" := {[ "edition" := JStr "editable" ]}; "id" := ∅ ]}.

(** An entity with fields of every kind. *)
Definition author_entity : EntityConfig :=
  mkEntityConfig (JStr "Authors")
    {[ "id" := {[ "edition" := JStr "read-only" ]};
       "name" := {[ "edition" := JStr "editable" ]};
       "bio" := {[ "edition" := JStr "editable"; "type" := JStr "text" ]};
       "rank" := {[ "type" := JStr "number" ]} ]}.

Definition book_config : Config :=
  mkConfig (mkGlobalConfig (JStr "http://localhost:3000") JUndefined)
    {[ "book" := book_entity; "author" := author_entity ]}.

(** The configuration has been loaded; the client is untouched. *)
Definition book_world : World := mkWorld (Resolved book_config) JUndefined false [].

(** The configuration could not be loaded. *)
Definition broken_world : World :=
  mkWorld (Rejected (JStr "config.json: 404")) JUndefined false [].

Definition book_record : Entity := {[ "id" := JNum 5; "title" := JStr "Foo" ]}.

(** A record without a title. *)
Definition untitled_record : Entity := {[ "id" := JNum 6 ]}.

Definition count_header (n : string) (name : string) : JsVal :=
  if String.eqb name "X-Count" then JStr n else JUndefined.

(** An endpoint that answers every request successfully. *)
Definition book_backend : Backend :=
  mkBackend
    (λ _, Resolved (mkResponse book_record (count_header "1")))
    (λ _, Resolved (mkResponse [book_record; untitled_record] (count_header "42")))
    (λ _, Resolved (JRef 1))
    (λ _, Resolved (JRef 2))
    (λ _, Resolved (JRef 3)).

(** The same endpoint serving the record without a title. *)
Definition untitled_backend : Backend :=
  mkBackend
    (λ _, Resolved (mkResponse untitled_record (count_header "1")))
    (answerGetList book_backend) (answerPost book_backend)
    (answerPut book_backend) (answerRemove book_backend).

(** An endpoint that cannot be reached: every request is rejected. *)
Definition offline_backend : Backend :=
  mkBackend (λ _, Rejected (JRef 503)) (λ _, Rejected (JRef 503))
    (λ _, Rejected (JRef 503)) (λ _, Rejected (JRef 503)) (λ _, Rejected (JRef 503)).

(** The sample configuration with a page size of zero. *)
Definition unpaged_world : World :=
  mkWorld
    (Resolved (mkConfig (mkGlobalConfig (JStr "http://localhost:3000") (JNum 0))
                 (entities book_config)))
    JUndefined false [].

(** ** The date parser patch

    [src/javascripts/ng-admin/Crud/CrudModule.js], lines 82-96: the
    [dateParser] service is decorated, its [parse] method replaced by a
    guarded one. *)

(** [angular.isString(v)] *)
Definition isString (v : JsVal) : bool := bool_decide (typeof v = "string").

(** The [dateParser] service, as far as the decorator looks at it.  A Date
    object among the inputs or results is a reference. *)
Record DateParser : Type := mkDateParser {
  parse : JsVal → JsVal → JsVal
}.

(** The decorator.  [$delegate.parse] is assigned and [$delegate] returned;
    [oldParse.apply(this, arguments)] is the old method on the same
    [input] and [format]. *)
Definition decorate_dateParser (delegate : DateParser) : DateParser :=
  let oldParse := parse delegate in
  mkDateParser
    (λ input format,
       if negb (isString input) || negb (truthy format) then input
       else oldParse input format).

(** ** Auxiliary facts *)

Lemma typeof_undefined (v : JsVal) : typeof v = "undefined" ↔ v = JUndefined.
Proof.
  destruct v; simpl; split; intros H; try done; try discriminate H.
  destruct (String.eqb name "__proto__"); discriminate H.
Qed.

Lemma parseInt_small (n : Z) : Z.abs n < 10 ^ 21 → parseInt n = n.
Proof.
  intros Hsmall. unfold parseInt.
  destruct (Z.ltb_spec (Z.abs n) (10 ^ 21)); [done | lia].
Qed.

Lemma entity_lookup_own (es : gmap string EntityConfig) (name : string)
    (ec : EntityConfig) :
  es !! name = Some ec → entity_lookup es name = Some (Configured ec).
Proof. unfold entity_lookup. by intros ->. Qed.

Lemma entity_lookup_absent (es : gmap string EntityConfig) (name : string) :
  es !! name = None → Object_prototype !! name = None → entity_lookup es name = None.
Proof. unfold entity_lookup. by intros -> ->. Qed.

Lemma entity_lookup_inherited (es : gmap string EntityConfig) (name : string)
    (member : JsVal) :
  es !! name = None → Object_prototype !! name = Some member →
  entity_lookup es name = Some (Inherited member).
Proof. unfold entity_lookup. by intros -> ->. Qed.

Lemma entity_lookup_Some_own (es : gmap string EntityConfig) (name : string)
    (ec : EntityConfig) :
  entity_lookup es name = Some (Configured ec) ↔ es !! name = Some ec.
Proof.
  unfold entity_lookup. destruct (es !! name) as [ec'|].
  - split; intros [= ->]; done.
  - split; [|done]. by destruct (Object_prototype !! name).
Qed.

Lemma entity_lookup_Some_inherited (es : gmap string EntityConfig) (name : string)
    (member : JsVal) :
  entity_lookup es name = Some (Inherited member) → es !! name = None.
Proof. unfold entity_lookup. by destruct (es !! name). Qed.

Lemma indexOf_from_found (l : list JsVal) (x : JsVal) (i : Z) :
  0 ≤ i → indexOf_from l x i ≠ -1 ↔ x ∈ l.
Proof.
  revert i. induction l as [|y l IH]; intros i Hi; simpl.
  - split; [done | intros H; by apply elem_of_nil in H].
  - unfold strict_equals. case_bool_decide as Hyx.
    + subst y. split; [intros _; apply list_elem_of_here | lia].
    + rewrite IH by lia. rewrite elem_of_cons.
      split; [by right | intros [->|]; done].
Qed.

Lemma indexOf_found (l : list JsVal) (x : JsVal) : indexOf l x ≠ -1 ↔ x ∈ l.
Proof. apply indexOf_from_found. lia. Qed.

Lemma truthy_js_length {A} (l : list A) : truthy (js_length l) = false ↔ l = [].
Proof.
  destruct l; simpl; [done|]. split; intros H; discriminate H.
Qed.

(** The loop of [getOne] touches each field once, and only its own entry. *)
Lemma forEach_mergeValue (entity : Entity) (fs : gmap string FieldConfig) :
  forEach fs (mergeValue entity) fs = merged_fields entity fs.
Proof.
  apply map_eq; intros k. unfold merged_fields. rewrite map_lookup_imap.
  unfold forEach.
  assert (∀ b m : gmap string FieldConfig,
    map_fold (λ key value acc, mergeValue entity value key acc) b m !! k
    = match m !! k with
      | Some f =>
          (if decide (has_edition f ∧ prop entity k ≠ JUndefined)
           then <["value" := prop entity k]> else id) <$> b !! k
      | None => b !! k
      end) as Hgen.
  { intros b m.
    apply (map_fold_weak_ind (λ r m', r !! k = match m' !! k with
      | Some f =>
          (if decide (has_edition f ∧ prop entity k ≠ JUndefined)
           then <["value" := prop entity k]> else id) <$> b !! k
      | None => b !! k
      end)); clear m.
    - by rewrite lookup_empty.
    - intros i x m r Hi IH. unfold mergeValue, set_value.
      destruct (decide (i = k)) as [->|Hne].
      + rewrite lookup_insert_eq. rewrite Hi in IH.
        case_bool_decide as Hed.
        * apply typeof_undefined in Hed. rewrite IH.
          rewrite decide_False; [by destruct (b !! k)|].
          unfold has_edition. intros [Hdef _]. by apply Hdef.
        * rewrite typeof_undefined in Hed. case_bool_decide as Hv.
          -- rewrite typeof_undefined in Hv. rewrite lookup_alter_eq, IH.
             by rewrite decide_True.
          -- apply typeof_undefined in Hv.
             rewrite IH. rewrite decide_False; [by destruct (b !! k)|].
             intros [_ Hdef]. by apply Hdef.
      + rewrite lookup_insert_ne by done.
        repeat case_bool_decide; try done; by rewrite lookup_alter_ne. }
  rewrite Hgen. destruct (fs !! k) as [f|] eqn:Hk; simpl; [|done].
  unfold merged. by destruct (decide _).
Qed.

Lemma merged_fields_lookup (entity : Entity) (fs : gmap string FieldConfig) k :
  merged_fields entity fs !! k = merged entity k <$> fs !! k.
Proof. unfold merged_fields. rewrite map_lookup_imap. by destruct (fs !! k). Qed.

(** [filterEditionFields] keeps the edition-tagged fields that pass the
    filter list, each under its own name and unchanged. *)
Lemma filterEditionFields_filter (fs : gmap string FieldConfig) (filters : list JsVal) :
  filterEditionFields fs filters
  = filter (λ kv, has_edition kv.2 ∧ (filters = [] ∨ prop kv.2 "edition" ∈ filters)) fs.
Proof.
  unfold filterEditionFields, forEach.
  apply (map_fold_weak_ind (λ r m,
    r = filter (λ kv, has_edition kv.2
                     ∧ (filters = [] ∨ prop kv.2 "edition" ∈ filters)) m)).
  - by rewrite map_filter_empty.
  - intros i x m r Hi ->.
    case_bool_decide as Hed.
    + apply typeof_undefined in Hed.
      rewrite map_filter_insert_False; [by rewrite delete_id|].
      unfold has_edition. simpl. intros [Hdef _]. by apply Hdef.
    + rewrite typeof_undefined in Hed.
      destruct (truthy (js_length filters)) eqn:Hlen; simpl.
      * assert (filters ≠ []) as Hne.
        { intros ->. discriminate Hlen. }
        case_bool_decide as Hidx.
        -- apply indexOf_found in Hidx.
           rewrite map_filter_insert_True; [done|]. simpl. split; [done | by right].
        -- assert (prop x "edition" ∉ filters) as Hnotin.
           { intros Hin. by apply indexOf_found in Hin. }
           rewrite map_filter_insert_False; [by rewrite delete_id|].
           simpl. intros [_ [Hnil|Hin]]; [by apply Hne | by apply Hnotin].
      * apply truthy_js_length in Hlen. subst filters.
        rewrite map_filter_insert_True; [done|]. simpl. split; [done | by left].
Qed.

Lemma filterEditionFields_lookup (fs : gmap string FieldConfig) (filters : list JsVal)
    (k : string) (f : FieldConfig) :
  filterEditionFields fs filters !! k = Some f
  ↔ fs !! k = Some f ∧ has_edition f
    ∧ (filters = [] ∨ prop f "edition" ∈ filters).
Proof. rewrite filterEditionFields_filter. by rewrite map_lookup_filter_Some. Qed.

Lemma filters_of_array (tags : list JsVal) :
  tags ≠ [] → filters_of (FilterArray tags) = tags.
Proof.
  intros Hne. unfold filters_of.
  destruct (truthy (js_length tags)) eqn:Hlen; [done|].
  by apply truthy_js_length in Hlen.
Qed.

Lemma filterEditionFields_no_filter (fs : gmap string FieldConfig) :
  filterEditionFields fs [] = edition_tagged fs.
Proof.
  rewrite filterEditionFields_filter. unfold edition_tagged.
  apply map_filter_ext. intros k f _. simpl.
  split; [by intros [? _] | intros ?; split; [done | by left]].
Qed.

Lemma filterEditionFields_tags (fs : gmap string FieldConfig) (filters : list JsVal) :
  filters ≠ [] → filterEditionFields fs filters = tagged_with filters fs.
Proof.
  intros Hne. rewrite filterEditionFields_filter. unfold tagged_with.
  apply map_filter_ext. intros k f _. simpl.
  split; [intros [? [?|?]]; done | intros [? ?]; split; [done | by right]].
Qed.

(** ** How each operation runs *)

Ltac run_operation :=
  unfold getOne, getEditionFields, createOne, updateOne, deleteOne, getAll,
         then1, then_, q_reject, issue, resolve_cb, reject_cb, getConfig in *;
  simpl.

Section Runs.

Variable backend : Backend.
Variables (w : World) (entityName : string).

(** *** The configuration cannot be loaded, or is still loading *)

Lemma getOne_config_rejected id r :
  getConfig w = Rejected r → getOne backend entityName id w = (Rejected r, w).
Proof. run_operation. intros ->. by destruct w. Qed.

Lemma getEditionFields_config_rejected filterType r :
  getConfig w = Rejected r → getEditionFields entityName filterType w = (Rejected r, w).
Proof. run_operation. intros ->. by destruct w. Qed.

Lemma createOne_config_rejected entity r :
  getConfig w = Rejected r → createOne backend entityName entity w = (Rejected r, w).
Proof. run_operation. intros ->. by destruct w. Qed.

Lemma updateOne_config_rejected entity r :
  getConfig w = Rejected r → updateOne backend entityName entity w = (Rejected r, w).
Proof. run_operation. intros ->. by destruct w. Qed.

Lemma deleteOne_config_rejected id r :
  getConfig w = Rejected r → deleteOne backend entityName id w = (Rejected r, w).
Proof. run_operation. intros ->. by destruct w. Qed.

Lemma getAll_config_rejected page r :
  getConfig w = Rejected r → getAll backend entityName page w = (Rejected r, w).
Proof. run_operation. intros ->. by destruct w. Qed.

Lemma deleteOne_config_pending id :
  getConfig w = Pending → deleteOne backend entityName id w = (Pending, w).
Proof. run_operation. intros ->. by destruct w. Qed.

(** *** The configuration is loaded *)

Variable config : Config.
Hypothesis Hconfig : getConfig w = Resolved config.

(** A name for which [entityName in config.entities] is false. *)
Section NotFound.

Hypothesis Hnotfound : entity_lookup (entities config) entityName = None.

Lemma getOne_not_found id :
  getOne backend entityName id w = (Rejected (not_found entityName), w).
Proof. run_operation. rewrite Hconfig, Hnotfound. by destruct w. Qed.

Lemma createOne_not_found entity :
  createOne backend entityName entity w = (Rejected (not_found entityName), w).
Proof. run_operation. rewrite Hconfig, Hnotfound. by destruct w. Qed.

Lemma updateOne_not_found entity :
  updateOne backend entityName entity w = (Rejected (not_found entityName), w).
Proof. run_operation. rewrite Hconfig, Hnotfound. by destruct w. Qed.

Lemma getAll_not_found page :
  getAll backend entityName page w = (Rejected (not_found entityName), w).
Proof. run_operation. rewrite Hconfig, Hnotfound. by destruct w. Qed.

(** The deferred of [getEditionFields] is left as it was created. *)
Lemma getEditionFields_not_found filterType :
  getEditionFields entityName filterType w = (Pending, w).
Proof. run_operation. rewrite Hconfig, Hnotfound. by destruct w. Qed.

End NotFound.

(** An entity name the configuration does not have and that is not
    inherited either. *)
Section Unknown.

Hypothesis Hunknown : entities config !! entityName = None.
Hypothesis Hnot_inherited : Object_prototype !! entityName = None.

Lemma getOne_unknown id :
  getOne backend entityName id w = (Rejected (not_found entityName), w).
Proof. apply getOne_not_found. by apply entity_lookup_absent. Qed.

Lemma createOne_unknown entity :
  createOne backend entityName entity w = (Rejected (not_found entityName), w).
Proof. apply createOne_not_found. by apply entity_lookup_absent. Qed.

Lemma updateOne_unknown entity :
  updateOne backend entityName entity w = (Rejected (not_found entityName), w).
Proof. apply updateOne_not_found. by apply entity_lookup_absent. Qed.

Lemma getAll_unknown page :
  getAll backend entityName page w = (Rejected (not_found entityName), w).
Proof. apply getAll_not_found. by apply entity_lookup_absent. Qed.

Lemma getEditionFields_unknown filterType :
  getEditionFields entityName filterType w = (Pending, w).
Proof. apply getEditionFields_not_found. by apply entity_lookup_absent. Qed.

End Unknown.

(** [deleteOne] does the same whatever the name is: its promise ends as the
    request's does. *)
Lemma deleteOne_run id :
  deleteOne backend entityName id w
  = (answerRemove backend (mkRequest (baseApiUrl (global config)) (fullResponse w) (Remove entityName id)),
     after_request (baseApiUrl (global config)) (fullResponse w) (Remove entityName id) w).
Proof.
  run_operation. rewrite Hconfig. simpl.
  by destruct (answerRemove backend _).
Qed.

(** A name for which [entityName in config.entities] holds, own or
    inherited. *)
Section Found.

Variable found : EntityRef.
Hypothesis Hfound : entity_lookup (entities config) entityName = Some found.

Lemma getEditionFields_found filterType :
  getEditionFields entityName filterType w
  = (Resolved (mkEditionResult
                 (filterEditionFields (default ∅ (ref_fields found))
                    (filters_of filterType))
                 (ref_label found) entityName),
     w).
Proof. run_operation. rewrite Hconfig, Hfound. by destruct w. Qed.

Lemma createOne_found entity :
  createOne backend entityName entity w
  = (answerPost backend (mkRequest (baseApiUrl (global config)) (fullResponse w) (Post entityName entity)),
     after_request (baseApiUrl (global config)) (fullResponse w) (Post entityName entity) w).
Proof.
  run_operation. rewrite Hconfig, Hfound. simpl.
  by destruct (answerPost backend _).
Qed.

Lemma updateOne_found entity :
  updateOne backend entityName entity w
  = (answerPut backend (mkRequest (baseApiUrl (global config)) (fullResponse w) (Put entityName entity)),
     after_request (baseApiUrl (global config)) (fullResponse w) (Put entityName entity) w).
Proof.
  run_operation. rewrite Hconfig, Hfound. simpl.
  by destruct (answerPut backend _).
Qed.

Lemma getAll_found page :
  let page' := default 1 (parseInt <$> page) in
  let perPage := if truthy (per_page (global config))
                 then per_page (global config) else JNum 30 in
  getAll backend entityName page w
  = (promise_map
       (λ response, mkAllResult entityName (Some found) (data response) page' perPage
                      (headers response "X-Count"))
       (answerGetList backend (mkRequest (baseApiUrl (global config)) true (GetList entityName page' perPage))),
     after_request (baseApiUrl (global config)) true (GetList entityName page' perPage) w).
Proof.
  run_operation. rewrite Hconfig, Hfound. simpl.
  unfold js_or. destruct page; simpl;
    by destruct (answerGetList backend _).
Qed.

(** Whatever the fetch ends in, [getOne] has set the client up and issued
    its request. *)
Lemma getOne_found_client id :
  baseUrl (getOne backend entityName id w).2 = baseApiUrl (global config)
  ∧ fullResponse (getOne backend entityName id w).2 = true
  ∧ sent (getOne backend entityName id w).2
    = sent w ++ [mkRequest (baseApiUrl (global config)) true (GetOne entityName id)].
Proof.
  run_operation. rewrite Hconfig, Hfound. simpl.
  destruct (answerGet backend _) as [|response|r]; simpl; [done| |done].
  destruct (ref_fields found); simpl; [|done].
  unfold store_fields. simpl. by rewrite Hconfig.
Qed.

End Found.

(** A name the mapping inherits from [Object.prototype]: the look-up finds
    a built-in, which has no fields and no label. *)
Section InheritedName.

Variable member : JsVal.
Hypothesis Hinherited : entity_lookup (entities config) entityName = Some (Inherited member).

Lemma getOne_inherited id :
  getOne backend entityName id w
  = (promise_map (λ _, mkOneResult None JUndefined entityName id)
       (answerGet backend (mkRequest (baseApiUrl (global config)) true (GetOne entityName id))),
     after_request (baseApiUrl (global config)) true (GetOne entityName id) w).
Proof.
  run_operation. rewrite Hconfig, Hinherited. simpl.
  by destruct (answerGet backend _).
Qed.

End InheritedName.

(** An entity of the configuration. *)
Section Known.

Variable ec : EntityConfig.
Hypothesis Hknown : entities config !! entityName = Some ec.

Lemma getEditionFields_run filterType :
  getEditionFields entityName filterType w
  = (Resolved (mkEditionResult
                 (filterEditionFields (fields ec) (filters_of filterType))
                 (label ec) entityName),
     w).
Proof.
  by rewrite (getEditionFields_found (Configured ec) (entity_lookup_own _ _ _ Hknown)).
Qed.

Lemma createOne_run entity :
  createOne backend entityName entity w
  = (answerPost backend (mkRequest (baseApiUrl (global config)) (fullResponse w) (Post entityName entity)),
     after_request (baseApiUrl (global config)) (fullResponse w) (Post entityName entity) w).
Proof. apply (createOne_found (Configured ec)). by apply entity_lookup_own. Qed.

Lemma updateOne_run entity :
  updateOne backend entityName entity w
  = (answerPut backend (mkRequest (baseApiUrl (global config)) (fullResponse w) (Put entityName entity)),
     after_request (baseApiUrl (global config)) (fullResponse w) (Put entityName entity) w).
Proof. apply (updateOne_found (Configured ec)). by apply entity_lookup_own. Qed.

Lemma getOne_run id response :
  answerGet backend (mkRequest (baseApiUrl (global config)) true (GetOne entityName id)) = Resolved response →
  getOne backend entityName id w
  = (Resolved (mkOneResult (Some (merged_fields (data response) (fields ec)))
                 (label ec) entityName id),
     store_fields entityName (merged_fields (data response) (fields ec))
       (after_request (baseApiUrl (global config)) true (GetOne entityName id) w)).
Proof.
  intros Hget. run_operation.
  rewrite Hconfig, (entity_lookup_own _ _ _ Hknown). simpl.
  rewrite Hget. simpl. by rewrite forEach_mergeValue.
Qed.

Lemma getAll_run page :
  let page' := default 1 (parseInt <$> page) in
  let perPage := if truthy (per_page (global config))
                 then per_page (global config) else JNum 30 in
  getAll backend entityName page w
  = (promise_map
       (λ response, mkAllResult entityName (Some (Configured ec)) (data response)
                      page' perPage (headers response "X-Count"))
       (answerGetList backend (mkRequest (baseApiUrl (global config)) true (GetList entityName page' perPage))),
     after_request (baseApiUrl (global config)) true (GetList entityName page' perPage) w).
Proof. apply (getAll_found (Configured ec)). by apply entity_lookup_own. Qed.

End Known.

End Runs.

(** ** getOne: merging a record into the field metadata *)

(** C1.  For an entity of the configuration, once the record is fetched
    [getOne] resolves with [{fields, entityLabel, entityName, entityId}]; the
    fields are those of the entity, a field without an [edition] tag is
    returned as it is, and an edition-tagged field receives in its [value]
    slot what the record gives under the field's name. *)
Theorem getOne_merges_edition_fields
    (backend : Backend) (w : World) (entityName : string) (entityId : JsVal)
    (config : Config) (ec : EntityConfig) (response : Response Entity) :
  getConfig w = Resolved config →
  entities config !! entityName = Some ec →
  answerGet backend
    (mkRequest (baseApiUrl (global config)) true (GetOne entityName entityId))
  = Resolved response →
  ∃ (res : OneResult) (fs : gmap string FieldConfig),
    (getOne backend entityName entityId w).1 = Resolved res
    ∧ one_fields res = Some fs
    ∧ one_entityLabel res = label ec
    ∧ one_entityName res = entityName
    ∧ one_entityId res = entityId
    ∧ fs = merged_fields (data response) (fields ec)
    ∧ dom fs = dom (fields ec)
    ∧ ∀ fieldName field, fields ec !! fieldName = Some field →
        (¬ has_edition field → fs !! fieldName = Some field)
        ∧ (has_edition field → prop (data response) fieldName ≠ JUndefined →
           fs !! fieldName
           = Some (<["value" := prop (data response) fieldName]> field))
        ∧ (has_edition field → prop (data response) fieldName = JUndefined →
           fs !! fieldName = Some field).
Proof.
  intros Hconfig Hknown Hget.
  rewrite (getOne_run backend w entityName config Hconfig ec Hknown entityId response Hget).
  eexists _, _. split; [reflexivity|]. simpl. do 5 (split; [done|]). split.
  - apply dom_imap_L. intros k. rewrite elem_of_dom. unfold is_Some.
    split; [intros [f Hf]; exists f; eauto | intros [f [Hf _]]; eauto].
  - intros k f Hf. rewrite merged_fields_lookup, Hf. simpl. unfold merged.
    split; [|split].
    + intros Hno. rewrite decide_False; [done | by intros [? _]].
    + intros Hed Hdef. by rewrite decide_True.
    + intros Hed Hundef. rewrite decide_False; [done | by intros [_ ?]].
Qed.

(** The example of the specification: the book entity and the record
    [{id: 5, title: 'Foo'}]. *)
Lemma getOne_merges_edition_fields_book :
  (getConfig book_world = Resolved book_config
   ∧ entities book_config !! "book" = Some book_entity
   ∧ answerGet book_backend
       (mkRequest (baseApiUrl (global book_config)) true (GetOne "book" (JNum 5)))
     = Resolved (mkResponse book_record (count_header "1")))
  ∧ ∃ res : OneResult,
      (getOne book_backend "book" (JNum 5) book_world).1 = Resolved res
      ∧ one_entityLabel res = JStr "Books"
      ∧ one_fields res
        = Some {[ "title" := {[ "edition" := JStr "editable"; "value" := JStr "Foo" ]};
                  "id" := ∅ ]}.
Proof.
  assert (getConfig book_world = Resolved book_config) as H1 by reflexivity.
  assert (entities book_config !! "book" = Some book_entity) as H2
    by (vm_compute; reflexivity).
  assert (answerGet book_backend
            (mkRequest (baseApiUrl (global book_config)) true (GetOne "book" (JNum 5)))
          = Resolved (mkResponse book_record (count_header "1"))) as H3 by reflexivity.
  split; [by repeat split|].
  destruct (getOne_merges_edition_fields book_backend book_world "book" (JNum 5)
              book_config book_entity _ H1 H2 H3)
    as (res & fs & Hres & Hsome & Hlabel & _ & _ & Hfields & _).
  exists res. split; [exact Hres|]. split; [exact Hlabel|].
  rewrite Hsome, Hfields. vm_compute. reflexivity.
Defined.



(** ** getEditionFields: filtering the field metadata *)

(** C4.  Without a filter, [getEditionFields] resolves with exactly the
    fields of the entity that declare an [edition] tag, each under its own
    name (the result is a mapping, compared by content). *)
Theorem getEditionFields_no_filter_all_edition_fields
    (w : World) (entityName : string) (config : Config) (ec : EntityConfig) :
  getConfig w = Resolved config →
  entities config !! entityName = Some ec →
  ∃ res : EditionResult,
    (getEditionFields entityName NoFilter w).1 = Resolved res
    ∧ edition_entityLabel res = label ec
    ∧ edition_entityName res = entityName
    ∧ edition_fields res = edition_tagged (fields ec)
    ∧ ∀ fieldName field,
        edition_fields res !! fieldName = Some field
        ↔ fields ec !! fieldName = Some field ∧ prop field "edition" ≠ JUndefined.
Proof.
  intros Hconfig Hknown.
  rewrite (getEditionFields_run w entityName config Hconfig ec Hknown).
  eexists. split; [reflexivity|]. simpl. do 2 (split; [done|]).
  split; [apply filterEditionFields_no_filter|].
  intros k f. rewrite filterEditionFields_lookup. unfold has_edition.
  split; [by intros (? & ? & _) | intros [? ?]; repeat split; [done..| by left]].
Qed.

(** The author entity: [rank], which has no [edition] tag, is left out. *)
Lemma getEditionFields_no_filter_all_edition_fields_author :
  (getConfig book_world = Resolved book_config
   ∧ entities book_config !! "author" = Some author_entity)
  ∧ ∃ res : EditionResult,
      (getEditionFields "author" NoFilter book_world).1 = Resolved res
      ∧ edition_fields res
        = {[ "id" := {[ "edition" := JStr "read-only" ]};
             "name" := {[ "edition" := JStr "editable" ]};
             "bio" := {[ "edition" := JStr "editable"; "type" := JStr "text" ]} ]}.
Proof.
  assert (getConfig book_world = Resolved book_config) as H1 by reflexivity.
  assert (entities book_config !! "author" = Some author_entity) as H2
    by (vm_compute; reflexivity).
  split; [by split|].
  destruct (getEditionFields_no_filter_all_edition_fields book_world "author"
              book_config author_entity H1 H2) as (res & Hres & _ & _ & Hfields & _).
  exists res. split; [exact Hres|]. rewrite Hfields. vm_compute. reflexivity.
Defined.

(** C8.  An empty array as filter is no filter: the call resolves as the
    call without a filter does, with all the edition-tagged fields. *)
Theorem getEditionFields_empty_array_is_no_filter
    (w : World) (entityName : string) (config : Config) (ec : EntityConfig) :
  getConfig w = Resolved config →
  entities config !! entityName = Some ec →
  getEditionFields entityName (FilterArray []) w = getEditionFields entityName NoFilter w
  ∧ (getEditionFields entityName (FilterArray []) w).1
    = Resolved (mkEditionResult (edition_tagged (fields ec)) (label ec) entityName).
Proof.
  intros Hconfig Hknown.
  rewrite !(getEditionFields_run w entityName config Hconfig ec Hknown).
  simpl. split; [reflexivity|]. by rewrite filterEditionFields_no_filter.
Qed.

Lemma getEditionFields_empty_array_is_no_filter_author :
  (getConfig book_world = Resolved book_config
   ∧ entities book_config !! "author" = Some author_entity)
  ∧ getEditionFields "author" (FilterArray []) book_world
    = getEditionFields "author" NoFilter book_world
  ∧ (getEditionFields "author" (FilterArray []) book_world).1
    = Resolved (mkEditionResult (edition_tagged (fields author_entity))
                  (JStr "Authors") "author").
Proof.
  assert (getConfig book_world = Resolved book_config) as H1 by reflexivity.
  assert (entities book_config !! "author" = Some author_entity) as H2
    by (vm_compute; reflexivity).
  split; [by split|].
  exact (getEditionFields_empty_array_is_no_filter book_world "author"
           book_config author_entity H1 H2).
Defined.

(** C5 as stated fails on the empty list: the fields tagged with one of no
    tags are none, yet the call resolves with the editable title. *)
Lemma getEditionFields_empty_array_not_union :
  entities book_config !! "book" = Some book_entity
  ∧ tagged_with [] (fields book_entity) = ∅
  ∧ (getEditionFields "book" (FilterArray []) book_world).1
    = Resolved (mkEditionResult {[ "title" := {[ "edition" := JStr "editable" ]} ]}
                  (JStr "Books") "book")
  ∧ (getEditionFields "book" (FilterArray []) book_world).1
    ≠ Resolved (mkEditionResult (tagged_with [] (fields book_entity))
                  (JStr "Books") "book").
Proof.
  split; [vm_compute; reflexivity|]. split; [vm_compute; reflexivity|].
  split; [vm_compute; reflexivity|]. vm_compute. discriminate.
Qed.

(** C5, amended.  With a single tag as filter, [getEditionFields] resolves
    with the fields whose [edition] tag is that string; with a non-empty
    list of tags, with the fields whose [edition] tag is one of the list,
    that is the union over the tags of the list. *)
Theorem getEditionFields_filter_by_tags
    (w : World) (entityName : string) (config : Config) (ec : EntityConfig) :
  getConfig w = Resolved config →
  entities config !! entityName = Some ec →
  (∀ tag : string,
     ∃ res : EditionResult,
       (getEditionFields entityName (FilterString tag) w).1 = Resolved res
       ∧ edition_entityLabel res = label ec ∧ edition_entityName res = entityName
       ∧ ∀ fieldName field,
           edition_fields res !! fieldName = Some field
           ↔ fields ec !! fieldName = Some field ∧ prop field "edition" = JStr tag)
  ∧ (∀ tags : list JsVal, tags ≠ [] →
     ∃ res : EditionResult,
       (getEditionFields entityName (FilterArray tags) w).1 = Resolved res
       ∧ edition_entityLabel res = label ec ∧ edition_entityName res = entityName
       ∧ edition_fields res = tagged_with tags (fields ec)
       ∧ (∀ fieldName field,
           edition_fields res !! fieldName = Some field
           ↔ fields ec !! fieldName = Some field ∧ has_edition field
             ∧ ∃ tag, tag ∈ tags ∧ prop field "edition" = tag)
       ∧ ∀ tags1 tags2 : list JsVal, tags = tags1 ++ tags2 →
           edition_fields res
           = tagged_with tags1 (fields ec) ∪ tagged_with tags2 (fields ec)).
Proof.
  intros Hconfig Hknown. split.
  - intros tag.
    rewrite (getEditionFields_run w entityName config Hconfig ec Hknown).
    eexists. split; [reflexivity|]. simpl. do 2 (split; [done|]).
    intros k f. rewrite filterEditionFields_lookup. unfold has_edition.
    split.
    + intros (Hf & _ & [Hnil|Hin]); [done|].
      apply list_elem_of_singleton in Hin. done.
    + intros [Hf Htag]. rewrite Htag. repeat split; [done..|].
      right. by apply list_elem_of_singleton.
  - intros tags Hne.
    rewrite (getEditionFields_run w entityName config Hconfig ec Hknown).
    rewrite filters_of_array by done.
    eexists. split; [reflexivity|]. simpl. do 2 (split; [done|]).
    rewrite filterEditionFields_tags by done. split; [done|]. split.
    + intros k f. unfold tagged_with. rewrite map_lookup_filter_Some. simpl.
      split.
      * intros (Hf & Hed & Hin). eauto.
      * intros (Hf & Hed & tag & Hin & ->). done.
    + intros tags1 tags2 ->. unfold tagged_with. apply map_eq. intros k.
      apply option_eq. intros f.
      rewrite lookup_union_Some_raw, !map_lookup_filter_Some,
        map_lookup_filter_None. simpl. rewrite elem_of_app.
      split.
      * intros (Hf & Hed & [Hin|Hin]); [by left|].
        destruct (decide (prop f "edition" ∈ tags1)); [by left|].
        right. split; [|done]. right. intros f' Hf'.
        rewrite Hf in Hf'. injection Hf' as <-. by intros [_ ?].
      * intros [(Hf & Hed & Hin)|(_ & Hf & Hed & Hin)]; eauto.
Qed.

(** The author entity filtered by ['editable'] and by
    [['read-only', 'editable']]. *)
Lemma getEditionFields_filter_by_tags_author :
  (getConfig book_world = Resolved book_config
   ∧ entities book_config !! "author" = Some author_entity
   ∧ [JStr "read-only"; JStr "editable"] ≠ [])
  ∧ (∃ res : EditionResult,
       (getEditionFields "author" (FilterArray [JStr "read-only"; JStr "editable"])
          book_world).1 = Resolved res
       ∧ edition_fields res
         = {[ "id" := {[ "edition" := JStr "read-only" ]};
              "name" := {[ "edition" := JStr "editable" ]};
              "bio" := {[ "edition" := JStr "editable"; "type" := JStr "text" ]} ]}).
Proof.
  assert (getConfig book_world = Resolved book_config) as H1 by reflexivity.
  assert (entities book_config !! "author" = Some author_entity) as H2
    by (vm_compute; reflexivity).
  assert ([JStr "read-only"; JStr "editable"] ≠ []) as H3 by discriminate.
  split; [by repeat split|].
  destruct (proj2 (getEditionFields_filter_by_tags book_world "author"
                     book_config author_entity H1 H2) _ H3)
    as (res & Hres & _ & _ & Hfields & _).
  exists res. split; [exact Hres|]. rewrite Hfields. vm_compute. reflexivity.
Defined.

(** ** getAll: pagination *)

(** C6.  For an entity of the configuration, [getAll] asks for the given
    page (a page number below [10^21] in absolute value, which prints as a
    plain decimal), or page 1 when none is given, with the page size
    [per_page] of the global configuration when that is set (truthy, as [||]
    tests it) and 30 otherwise; once the list is fetched it resolves with
    [{entityName, entityConfig, rawItems, currentPage, perPage, totalItems}],
    [totalItems] being the [X-Count] header of the response. *)
Theorem getAll_requests_page_and_reads_count
    (backend : Backend) (w : World) (entityName : string) (page : option Z)
    (config : Config) (ec : EntityConfig) (response : Response (list Entity)) :
  let requested := match page with None => 1 | Some n => n end in
  let size := if truthy (per_page (global config))
              then per_page (global config) else JNum 30 in
  let request :=
    mkRequest (baseApiUrl (global config)) true (GetList entityName requested size) in
  match page with None => True | Some n => Z.abs n < 10 ^ 21 end →
  getConfig w = Resolved config →
  entities config !! entityName = Some ec →
  answerGetList backend request = Resolved response →
  sent (getAll backend entityName page w).2 = sent w ++ [request]
  ∧ (getAll backend entityName page w).1
    = Resolved {| all_entityName := entityName;
                  all_entityConfig := Some (Configured ec);
                  all_rawItems := data response;
                  all_currentPage := requested;
                  all_perPage := size;
                  all_totalItems := headers response "X-Count" |}.
Proof.
  intros requested size request Hpage Hconfig Hknown Hlist.
  pose proof (getAll_run backend w entityName config Hconfig ec Hknown page) as Hrun.
  simpl in Hrun.
  assert (default 1 (parseInt <$> page) = requested) as Hrequested.
  { unfold requested. destruct page as [n|]; simpl; [|done]. by apply parseInt_small. }
  rewrite Hrequested in Hrun. fold size request in Hrun.
  rewrite Hrun, Hlist. done.
Qed.

(** Page 2 of the books, no [per_page] configured: 30 per page, 42 in all. *)
Lemma getAll_requests_page_and_reads_count_book :
  (Z.abs 2 < 10 ^ 21
   ∧ getConfig book_world = Resolved book_config
   ∧ entities book_config !! "book" = Some book_entity
   ∧ answerGetList book_backend
       (mkRequest (JStr "http://localhost:3000") true (GetList "book" 2 (JNum 30)))
     = Resolved (mkResponse [book_record; untitled_record] (count_header "42")))
  ∧ sent (getAll book_backend "book" (Some 2) book_world).2
    = [mkRequest (JStr "http://localhost:3000") true (GetList "book" 2 (JNum 30))]
  ∧ (getAll book_backend "book" (Some 2) book_world).1
    = Resolved (mkAllResult "book" (Some (Configured book_entity))
                  [book_record; untitled_record] 2 (JNum 30) (JStr "42")).
Proof.
  assert (Z.abs 2 < 10 ^ 21) as H0 by (vm_compute; reflexivity).
  assert (getConfig book_world = Resolved book_config) as H1 by reflexivity.
  assert (entities book_config !! "book" = Some book_entity) as H2
    by (vm_compute; reflexivity).
  assert (answerGetList book_backend
            (mkRequest (JStr "http://localhost:3000") true (GetList "book" 2 (JNum 30)))
          = Resolved (mkResponse [book_record; untitled_record] (count_header "42")))
    as H3 by reflexivity.
  split; [by repeat split|].
  exact (getAll_requests_page_and_reads_count book_backend book_world "book" (Some 2)
           book_config book_entity _ H0 H1 H2 H3).
Defined.

(** ** Unknown entity names *)

(** C2.  With the configuration loaded and no entity ["ghost"] in it, the
    promise of [getEditionFields] is never settled: it is not rejected with
    the entity-not-found message that [getOne] rejects with on the same
    input. *)
Theorem getEditionFields_unknown_entity_never_settles :
  entities book_config !! "ghost" = None
  ∧ (getEditionFields "ghost" NoFilter book_world).1 = Pending
  ∧ is_rejected (getEditionFields "ghost" NoFilter book_world).1 = false
  ∧ (getOne book_backend "ghost" (JNum 5) book_world).1
    = Rejected (JStr "Entity ghost not found.").
Proof. repeat split; vm_compute; reflexivity. Qed.

(** C3 as stated fails for [deleteOne]: the deletion of an entity the
    configuration does not know is requested and resolves. *)
Lemma deleteOne_unknown_entity_resolves :
  entities book_config !! "ghost" = None
  ∧ (deleteOne book_backend "ghost" (JNum 5) book_world).1 = Resolved (JRef 3)
  ∧ is_rejected (deleteOne book_backend "ghost" (JNum 5) book_world).1 = false
  ∧ sent (deleteOne book_backend "ghost" (JNum 5) book_world).2
    = [mkRequest (JStr "http://localhost:3000") false (Remove "ghost" (JNum 5))].
Proof. repeat split; vm_compute; reflexivity. Qed.

(** C3, amended.  For an entity name that is not a key of the
    configuration's entity mapping, and not the name of a member the mapping
    inherits from [Object.prototype] either, [getOne], [createOne],
    [updateOne] and [getAll] reject with the entity-not-found message and
    issue no request; [deleteOne] does not look the name up: it issues the
    deletion and its promise ends as the request does. *)
Theorem unknown_entity_rejected_except_by_deleteOne
    (backend : Backend) (w : World) (entityName : string) (config : Config) :
  getConfig w = Resolved config →
  entities config !! entityName = None →
  Object_prototype !! entityName = None →
  (∀ id, getOne backend entityName id w = (Rejected (not_found entityName), w))
  ∧ (∀ entity,
       createOne backend entityName entity w = (Rejected (not_found entityName), w))
  ∧ (∀ entity,
       updateOne backend entityName entity w = (Rejected (not_found entityName), w))
  ∧ (∀ page, getAll backend entityName page w = (Rejected (not_found entityName), w))
  ∧ (∀ id,
       let request :=
         mkRequest (baseApiUrl (global config)) (fullResponse w) (Remove entityName id) in
       (deleteOne backend entityName id w).1 = answerRemove backend request
       ∧ sent (deleteOne backend entityName id w).2 = sent w ++ [request]).
Proof.
  intros Hconfig Hunknown Hnot_inherited. repeat split; intros.
  - by apply (getOne_unknown backend w entityName config).
  - by apply (createOne_unknown backend w entityName config).
  - by apply (updateOne_unknown backend w entityName config).
  - by apply (getAll_unknown backend w entityName config).
  - by rewrite (deleteOne_run backend w entityName config Hconfig).
  - by rewrite (deleteOne_run backend w entityName config Hconfig).
Qed.

Lemma unknown_entity_rejected_except_by_deleteOne_ghost :
  (getConfig book_world = Resolved book_config
   ∧ entities book_config !! "ghost" = None
   ∧ Object_prototype !! "ghost" = None)
  ∧ getOne book_backend "ghost" (JNum 5) book_world
    = (Rejected (JStr "Entity ghost not found."), book_world)
  ∧ (deleteOne book_backend "ghost" (JNum 5) book_world).1 = Resolved (JRef 3).
Proof.
  assert (getConfig book_world = Resolved book_config) as H1 by reflexivity.
  assert (entities book_config !! "ghost" = None) as H2 by (vm_compute; reflexivity).
  assert (Object_prototype !! "ghost" = None) as H3 by (vm_compute; reflexivity).
  split; [by repeat split|].
  destruct (unknown_entity_rejected_except_by_deleteOne book_backend book_world "ghost"
              book_config H1 H2 H3) as (Hone & _ & _ & _ & Hdelete).
  split; [exact (Hone (JNum 5))|].
  exact (proj1 (Hdelete (JNum 5))).
Defined.

(** ** deleteOne and the configuration *)

(** C10.  [deleteOne] waits for the configuration: when loading it fails the
    promise is rejected with that failure and nothing else happens, no
    request is issued; when it is loaded the base URL is set from it and the
    deletion is issued with that base URL, whatever the entity name. *)
Theorem deleteOne_needs_configuration
    (backend : Backend) (w : World) (entityName : string) (entityId : JsVal) :
  (∀ reason, getConfig w = Rejected reason →
     deleteOne backend entityName entityId w = (Rejected reason, w)
     ∧ sent (deleteOne backend entityName entityId w).2 = sent w)
  ∧ (∀ config, getConfig w = Resolved config →
     baseUrl (deleteOne backend entityName entityId w).2 = baseApiUrl (global config)
     ∧ sent (deleteOne backend entityName entityId w).2
       = sent w ++ [mkRequest (baseApiUrl (global config)) (fullResponse w)
                      (Remove entityName entityId)]).
Proof.
  split.
  - intros r Hr. by rewrite (deleteOne_config_rejected backend w entityName entityId r Hr).
  - intros config Hconfig.
    by rewrite (deleteOne_run backend w entityName config Hconfig).
Qed.

Lemma deleteOne_needs_configuration_broken :
  getConfig broken_world = Rejected (JStr "config.json: 404")
  ∧ deleteOne book_backend "book" (JNum 5) broken_world
    = (Rejected (JStr "config.json: 404"), broken_world)
  ∧ sent (deleteOne book_backend "book" (JNum 5) broken_world).2 = [].
Proof.
  assert (getConfig broken_world = Rejected (JStr "config.json: 404")) as H1
    by reflexivity.
  split; [exact H1|].
  exact (proj1 (deleteOne_needs_configuration book_backend broken_world "book" (JNum 5))
           _ H1).
Defined.

(** ** The configuration at run time *)

Lemma without_value_merged (entity : Entity) (fieldName : string) (field : FieldConfig) :
  without_value (merged entity fieldName field) = without_value field.
Proof.
  unfold merged, without_value. destruct (decide _); [|done].
  apply delete_insert_eq.
Qed.

Lemma entity_frame_merged (entity : Entity) (ec : EntityConfig) :
  entity_frame (mkEntityConfig (label ec) (merged_fields entity (fields ec)))
  = entity_frame ec.
Proof.
  unfold entity_frame. simpl. f_equal. apply map_eq. intros k.
  rewrite !lookup_fmap, merged_fields_lookup.
  destruct (fields ec !! k); simpl; [|done]. by rewrite without_value_merged.
Qed.

Lemma getConfig_after_request url full call w :
  getConfig (after_request url full call w) = getConfig w.
Proof. reflexivity. Qed.

(** What [getOne] leaves in the shared configuration. *)
Lemma getOne_configuration (backend : Backend) (w : World) (entityName : string)
    (entityId : JsVal) :
  (getConfig (getOne backend entityName entityId w).2 = getConfig w
   ∧ ∀ res, (getOne backend entityName entityId w).1 = Resolved res →
       one_fields res = None
       ∧ ∃ config, getConfig w = Resolved config
                   ∧ entities config !! entityName = None)
  ∨ ∃ config ec response,
      getConfig w = Resolved config
      ∧ entities config !! entityName = Some ec
      ∧ (getOne backend entityName entityId w).1
        = Resolved (mkOneResult (Some (merged_fields (data response) (fields ec)))
                      (label ec) entityName entityId)
      ∧ getConfig (getOne backend entityName entityId w).2
        = Resolved (mkConfig (global config)
            (<[entityName := mkEntityConfig (label ec)
                               (merged_fields (data response) (fields ec))]>
               (entities config))).
Proof.
  destruct (getConfig w) as [|config|r] eqn:Hconfig.
  - left. run_operation. rewrite Hconfig. by destruct w.
  - destruct (entity_lookup (entities config) entityName) as [[ec|member]|] eqn:Hfound.
    + apply entity_lookup_Some_own in Hfound as Hknown.
      destruct (answerGet backend
                  (mkRequest (baseApiUrl (global config)) true
                     (GetOne entityName entityId))) as [|response|r] eqn:Hget.
      * left. run_operation. rewrite Hconfig, Hfound. simpl. by rewrite Hget.
      * right. exists config, ec, response. split; [done|]. split; [done|].
        rewrite (getOne_run backend w entityName config Hconfig ec Hknown
                   entityId response Hget).
        split; [done|]. simpl. unfold store_fields, getConfig in *. simpl.
        rewrite Hconfig. simpl. do 2 f_equal.
        apply map_eq. intros k. rewrite lookup_alter, lookup_insert.
        destruct (decide (entityName = k)) as [<-|]; [by rewrite Hknown | done].
      * left. run_operation. rewrite Hconfig, Hfound. simpl. by rewrite Hget.
    + left.
      rewrite (getOne_inherited backend w entityName config Hconfig member Hfound).
      simpl. split; [done|]. intros res Hres.
      destruct (answerGet backend _); simpl in Hres; [done| |done].
      injection Hres as <-. simpl. split; [done|].
      exists config. split; [done|]. by apply entity_lookup_Some_inherited in Hfound.
    + left. by rewrite (getOne_not_found backend w entityName config Hconfig Hfound).
  - left. by rewrite (getOne_config_rejected backend w entityName entityId r Hconfig).
Qed.

(** C7 as stated fails: [getOne] changes the shared configuration, and the
    value it wrote is still there for later calls; a second record that has
    no title is shown with the title of the first. *)
Lemma getOne_writes_into_configuration :
  let w1 := (getOne book_backend "book" (JNum 5) book_world).2 in
  getConfig w1 ≠ getConfig book_world
  ∧ (getEditionFields "book" NoFilter book_world).1
    = Resolved (mkEditionResult
                  {[ "title" := {[ "edition" := JStr "editable" ]} ]}
                  (JStr "Books") "book")
  ∧ (getEditionFields "book" NoFilter w1).1
    = Resolved (mkEditionResult
                  {[ "title" := {[ "edition" := JStr "editable"; "value" := JStr "Foo" ]} ]}
                  (JStr "Books") "book")
  ∧ prop untitled_record "title" = JUndefined
  ∧ (getOne untitled_backend "book" (JNum 6) w1).1
    = Resolved (mkOneResult
                  (Some {[ "title" := {[ "edition" := JStr "editable";
                                         "value" := JStr "Foo" ]};
                           "id" := ∅ ]})
                  (JStr "Books") "book" (JNum 6)).
Proof.
  intros w1. split.
  - intros Heq.
    apply (f_equal (λ p, match p with
                         | Resolved c =>
                             e ← entities c !! "book";
                             f ← fields e !! "title";
                             f !! "value"
                         | _ => None
                         end)) in Heq.
    vm_compute in Heq. discriminate Heq.
  - repeat split; vm_compute; reflexivity.
Qed.

(** C7, amended.  [getEditionFields], [createOne], [updateOne], [deleteOne]
    and [getAll] leave the configuration as it is.  [getOne] writes to it,
    but nothing except the [value] slot of edition-tagged fields of the
    entity asked for: the global section, the other entities, the label and
    the field names of the entity stay, a field without an [edition] tag is
    left as it is, and an edition-tagged field is either left as it is or has
    a defined value put in its [value] slot; the fields [getOne] resolves
    with, values included, are what the shared configuration holds
    afterwards. *)
Theorem configuration_written_only_in_value_slots (backend : Backend) (w : World) :
  (∀ entityName filterType, (getEditionFields entityName filterType w).2 = w)
  ∧ (∀ entityName entity,
       getConfig (createOne backend entityName entity w).2 = getConfig w)
  ∧ (∀ entityName entity,
       getConfig (updateOne backend entityName entity w).2 = getConfig w)
  ∧ (∀ entityName entityId,
       getConfig (deleteOne backend entityName entityId w).2 = getConfig w)
  ∧ (∀ entityName page,
       getConfig (getAll backend entityName page w).2 = getConfig w)
  ∧ (∀ entityName entityId,
       let w' := (getOne backend entityName entityId w).2 in
       promise_map config_frame (getConfig w') = promise_map config_frame (getConfig w)
       ∧ (∀ config config' other,
            getConfig w = Resolved config → getConfig w' = Resolved config' →
            other ≠ entityName →
            entities config' !! other = entities config !! other)
       ∧ (∀ config config',
            getConfig w = Resolved config → getConfig w' = Resolved config' →
            global config' = global config
            ∧ dom (entities config') = dom (entities config)
            ∧ ∀ ec, entities config !! entityName = Some ec →
                ∃ ec', entities config' !! entityName = Some ec'
                  ∧ label ec' = label ec
                  ∧ dom (fields ec') = dom (fields ec)
                  ∧ ∀ fieldName field, fields ec !! fieldName = Some field →
                      ∃ field', fields ec' !! fieldName = Some field'
                        ∧ (¬ has_edition field → field' = field)
                        ∧ (field' = field
                           ∨ ∃ v, v ≠ JUndefined
                                  ∧ field' = <["value" := v]> field))
       ∧ (∀ res, (getOne backend entityName entityId w).1 = Resolved res →
            ∃ config', getConfig w' = Resolved config'
                       ∧ one_fields res = fields <$> entities config' !! entityName)).
Proof.
  split; [|split; [|split; [|split; [|split]]]].
  - intros entityName filterType. run_operation.
    destruct (configPromise w) as [|config|r] eqn:Hconfig; [by destruct w| |by destruct w].
    destruct (entity_lookup (entities config) entityName); by destruct w.
  - intros entityName entity.
    destruct (getConfig w) as [|config|r] eqn:Hconfig.
    + run_operation. by rewrite Hconfig.
    + destruct (entity_lookup (entities config) entityName) as [found|] eqn:Hfound.
      * by rewrite (createOne_found backend w entityName config Hconfig found Hfound).
      * by rewrite (createOne_not_found backend w entityName config Hconfig Hfound).
    + by rewrite (createOne_config_rejected backend w entityName entity r Hconfig).
  - intros entityName entity.
    destruct (getConfig w) as [|config|r] eqn:Hconfig.
    + run_operation. by rewrite Hconfig.
    + destruct (entity_lookup (entities config) entityName) as [found|] eqn:Hfound.
      * by rewrite (updateOne_found backend w entityName config Hconfig found Hfound).
      * by rewrite (updateOne_not_found backend w entityName config Hconfig Hfound).
    + by rewrite (updateOne_config_rejected backend w entityName entity r Hconfig).
  - intros entityName entityId.
    destruct (getConfig w) as [|config|r] eqn:Hconfig.
    + by rewrite (deleteOne_config_pending backend w entityName entityId Hconfig).
    + by rewrite (deleteOne_run backend w entityName config Hconfig).
    + by rewrite (deleteOne_config_rejected backend w entityName entityId r Hconfig).
  - intros entityName page.
    destruct (getConfig w) as [|config|r] eqn:Hconfig.
    + run_operation. by rewrite Hconfig.
    + destruct (entity_lookup (entities config) entityName) as [found|] eqn:Hfound.
      * by rewrite (getAll_found backend w entityName config Hconfig found Hfound).
      * by rewrite (getAll_not_found backend w entityName config Hconfig Hfound).
    + by rewrite (getAll_config_rejected backend w entityName page r Hconfig).
  - intros entityName entityId w'. subst w'.
    destruct (getOne_configuration backend w entityName entityId)
      as [[Hsame Hnone]|(config & ec & response & Hconfig & Hknown & Hres & Hafter)].
    + rewrite Hsame. split; [done|]. split; [|split].
      * intros config config' other Hc Hc' _. rewrite Hc in Hc'. by injection Hc' as <-.
      * intros config config' Hc Hc'. rewrite Hc in Hc'. injection Hc' as <-.
        split; [done|]. split; [done|]. intros ec Hec. exists ec.
        split; [done|]. split; [done|]. split; [done|].
        intros k f Hf. exists f. split; [done|]. split; [done | by left].
      * intros res Hres. destruct (Hnone res Hres) as (Hfs & config & Hc & Hec).
        exists config. split; [done|]. by rewrite Hfs, Hec.
    + rewrite Hafter, Hconfig. simpl. split; [|split; [|split]].
      * f_equal. unfold config_frame. simpl. f_equal.
        rewrite fmap_insert, entity_frame_merged.
        apply insert_id. by rewrite lookup_fmap, Hknown.
      * intros config0 config' other Hc Hc' Hother.
        injection Hc as <-. injection Hc' as <-. simpl.
        by rewrite lookup_insert_ne.
      * intros config0 config' Hc Hc'. injection Hc as <-. injection Hc' as <-.
        simpl. split; [done|]. split.
        { rewrite dom_insert_L. apply subseteq_union_1_L, singleton_subseteq_l.
          by apply elem_of_dom_2 in Hknown. }
        intros ec0 Hec0. rewrite Hknown in Hec0. injection Hec0 as <-.
        eexists. rewrite lookup_insert_eq. split; [reflexivity|]. simpl.
        split; [done|]. split.
        { apply dom_imap_L. intros k. rewrite elem_of_dom. unfold is_Some.
          split; [intros [f Hf]; exists f; eauto | intros [f [Hf _]]; eauto]. }
        intros k f Hf. exists (merged (data response) k f).
        rewrite merged_fields_lookup, Hf. split; [done|]. unfold merged.
        destruct (decide _) as [[Hed Hdef]|Hno].
        -- split; [done|]. right. by exists (prop (data response) k).
        -- split; [done | by left].
      * intros res Hres'. rewrite Hres in Hres'. injection Hres' as <-.
        eexists. split; [reflexivity|]. simpl. by rewrite lookup_insert_eq.
Qed.

(** ** Further properties of the operations *)

(** *** Facts shared by the properties below *)

Lemma prop_edition_merged (entity : Entity) (fieldName : string) (field : FieldConfig) :
  prop (merged entity fieldName field) "edition" = prop field "edition".
Proof.
  unfold merged. destruct (decide _); [|done].
  unfold prop. by rewrite lookup_insert_ne.
Qed.

Lemma has_edition_merged (entity : Entity) (fieldName : string) (field : FieldConfig) :
  has_edition (merged entity fieldName field) ↔ has_edition field.
Proof. unfold has_edition. by rewrite prop_edition_merged. Qed.

Lemma merged_idempotent (entity : Entity) (fieldName : string) (field : FieldConfig) :
  merged entity fieldName (merged entity fieldName field) = merged entity fieldName field.
Proof.
  unfold merged at 1. destruct (decide _) as [[Hed Hdef]|Hno]; [|done].
  apply has_edition_merged in Hed.
  unfold merged. rewrite decide_True by done. apply insert_insert_eq.
Qed.

Lemma merged_fields_idempotent (entity : Entity) (fs : gmap string FieldConfig) :
  merged_fields entity (merged_fields entity fs) = merged_fields entity fs.
Proof.
  apply map_eq. intros k. rewrite !merged_fields_lookup.
  destruct (fs !! k); simpl; [|done]. by rewrite merged_idempotent.
Qed.

(** Merging a record does not change which fields a filter selects. *)
Lemma filterEditionFields_merged_fields (entity : Entity)
    (fs : gmap string FieldConfig) (filters : list JsVal) :
  filterEditionFields (merged_fields entity fs) filters
  = merged_fields entity (filterEditionFields fs filters).
Proof.
  apply map_eq. intros k. apply option_eq. intros f'.
  rewrite filterEditionFields_lookup, !merged_fields_lookup.
  split.
  - intros (Hk & Hed & Hin).
    destruct (fs !! k) as [f|] eqn:Hf; simpl in Hk; [|done].
    injection Hk as <-.
    rewrite has_edition_merged in Hed. rewrite prop_edition_merged in Hin.
    assert (filterEditionFields fs filters !! k = Some f) as ->; [|done].
    by apply filterEditionFields_lookup.
  - intros Hk.
    destruct (filterEditionFields fs filters !! k) as [f|] eqn:Hf; simpl in Hk; [|done].
    injection Hk as <-.
    apply filterEditionFields_lookup in Hf as (Hf & Hed & Hin).
    rewrite Hf. simpl. rewrite has_edition_merged, prop_edition_merged. done.
Qed.

Lemma getConfig_store_fields (w : World) (config : Config) (entityName : string)
    (ec : EntityConfig) (fs : gmap string FieldConfig) :
  getConfig w = Resolved config →
  entities config !! entityName = Some ec →
  getConfig (store_fields entityName fs w)
  = Resolved (mkConfig (global config)
                (<[entityName := mkEntityConfig (label ec) fs]> (entities config))).
Proof.
  unfold getConfig, store_fields. intros -> Hknown. simpl. do 2 f_equal.
  apply map_eq. intros k. rewrite lookup_alter, lookup_insert.
  destruct (decide (entityName = k)) as [<-|]; [by rewrite Hknown | done].
Qed.

Lemma client_store_fields (w : World) (entityName : string)
    (fs : gmap string FieldConfig) :
  baseUrl (store_fields entityName fs w) = baseUrl w
  ∧ fullResponse (store_fields entityName fs w) = fullResponse w
  ∧ sent (store_fields entityName fs w) = sent w.
Proof. unfold store_fields. by destruct (configPromise w). Qed.

(** The world [getOne] leaves when the entity is known, whatever the fetch
    ends in: the client is set up and the request is in the log. *)
Lemma getOne_client (backend : Backend) (w : World) (entityName : string)
    (entityId : JsVal) (config : Config) (ec : EntityConfig) :
  getConfig w = Resolved config →
  entities config !! entityName = Some ec →
  baseUrl (getOne backend entityName entityId w).2 = baseApiUrl (global config)
  ∧ fullResponse (getOne backend entityName entityId w).2 = true
  ∧ sent (getOne backend entityName entityId w).2
    = sent w ++ [mkRequest (baseApiUrl (global config)) true
                   (GetOne entityName entityId)].
Proof.
  intros Hconfig Hknown.
  apply (getOne_found_client backend w entityName config Hconfig (Configured ec)).
  by apply entity_lookup_own.
Qed.

Lemma operations_config_pending (backend : Backend) (w : World) :
  getConfig w = Pending →
  (∀ entityName entityId, getOne backend entityName entityId w = (Pending, w))
  ∧ (∀ entityName filterType,
     getEditionFields entityName filterType w = (Pending, w))
  ∧ (∀ entityName entity, createOne backend entityName entity w = (Pending, w))
  ∧ (∀ entityName entity, updateOne backend entityName entity w = (Pending, w))
  ∧ (∀ entityName entityId, deleteOne backend entityName entityId w = (Pending, w))
  ∧ (∀ entityName page, getAll backend entityName page w = (Pending, w)).
Proof.
  intros Hpending. repeat split; intros; run_operation; rewrite Hpending;
    by destruct w.
Qed.

Lemma operations_config_rejected (backend : Backend) (w : World) (r : JsVal) :
  getConfig w = Rejected r →
  (∀ entityName entityId, getOne backend entityName entityId w = (Rejected r, w))
  ∧ (∀ entityName filterType,
     getEditionFields entityName filterType w = (Rejected r, w))
  ∧ (∀ entityName entity, createOne backend entityName entity w = (Rejected r, w))
  ∧ (∀ entityName entity, updateOne backend entityName entity w = (Rejected r, w))
  ∧ (∀ entityName entityId, deleteOne backend entityName entityId w = (Rejected r, w))
  ∧ (∀ entityName page, getAll backend entityName page w = (Rejected r, w)).
Proof.
  intros Hr. repeat split; intros.
  - by apply getOne_config_rejected.
  - by apply getEditionFields_config_rejected.
  - by apply createOne_config_rejected.
  - by apply updateOne_config_rejected.
  - by apply deleteOne_config_rejected.
  - by apply getAll_config_rejected.
Qed.

(** *** Failures *)

(** X1.  When the configuration cannot be loaded, each of the six operations
    rejects with the reason the loading failed with, and leaves the client
    and the request log as they were; while the configuration is still
    loading, each of them stays pending and nothing is sent. *)
Theorem operations_wait_for_configuration (backend : Backend) (w : World) :
  (∀ reason, getConfig w = Rejected reason →
     (∀ entityName entityId,
        getOne backend entityName entityId w = (Rejected reason, w))
     ∧ (∀ entityName filterType,
        getEditionFields entityName filterType w = (Rejected reason, w))
     ∧ (∀ entityName entity,
        createOne backend entityName entity w = (Rejected reason, w))
     ∧ (∀ entityName entity,
        updateOne backend entityName entity w = (Rejected reason, w))
     ∧ (∀ entityName entityId,
        deleteOne backend entityName entityId w = (Rejected reason, w))
     ∧ (∀ entityName page,
        getAll backend entityName page w = (Rejected reason, w)))
  ∧ (getConfig w = Pending →
     (∀ entityName entityId, getOne backend entityName entityId w = (Pending, w))
     ∧ (∀ entityName filterType,
        getEditionFields entityName filterType w = (Pending, w))
     ∧ (∀ entityName entity, createOne backend entityName entity w = (Pending, w))
     ∧ (∀ entityName entity, updateOne backend entityName entity w = (Pending, w))
     ∧ (∀ entityName entityId, deleteOne backend entityName entityId w = (Pending, w))
     ∧ (∀ entityName page, getAll backend entityName page w = (Pending, w))).
Proof.
  split.
  - intros r Hr. by apply operations_config_rejected.
  - intros Hpending. by apply operations_config_pending.
Qed.

Lemma operations_wait_for_configuration_broken :
  getConfig broken_world = Rejected (JStr "config.json: 404")
  ∧ getAll book_backend "book" (Some 2) broken_world
    = (Rejected (JStr "config.json: 404"), broken_world)
  ∧ getEditionFields "book" NoFilter broken_world
    = (Rejected (JStr "config.json: 404"), broken_world).
Proof.
  assert (getConfig broken_world = Rejected (JStr "config.json: 404")) as H1
    by reflexivity.
  split; [exact H1|].
  destruct (proj1 (operations_wait_for_configuration book_backend broken_world) _ H1)
    as (_ & Hedition & _ & _ & _ & Hall).
  split; [exact (Hall "book" (Some 2)) | exact (Hedition "book" NoFilter)].
Defined.

(** X2.  With the configuration loaded, [getEditionFields] on a name that is
    not a key of the entity mapping never rejects, whatever the filter: when
    the name is not inherited from [Object.prototype] either, the promise is
    left pending; when it is inherited, the promise resolves with no fields
    and an undefined label.  The world is untouched in both cases. *)
Theorem getEditionFields_unknown_entity_pending
    (w : World) (entityName : string) (filterType : FilterType) (config : Config) :
  getConfig w = Resolved config →
  entities config !! entityName = None →
  getEditionFields entityName filterType w
  = (match Object_prototype !! entityName with
     | None => Pending
     | Some _ => Resolved (mkEditionResult ∅ JUndefined entityName)
     end, w).
Proof.
  intros Hconfig Hunknown.
  destruct (Object_prototype !! entityName) as [member|] eqn:Hproto.
  - rewrite (getEditionFields_found w entityName config Hconfig (Inherited member)
               (entity_lookup_inherited _ _ _ Hunknown Hproto)).
    simpl. unfold filterEditionFields, forEach. by rewrite map_fold_empty.
  - by apply (getEditionFields_unknown w entityName config).
Qed.

Lemma getEditionFields_unknown_entity_pending_ghost :
  (getConfig book_world = Resolved book_config
   ∧ entities book_config !! "ghost" = None
   ∧ entities book_config !! "toString" = None)
  ∧ getEditionFields "ghost" (FilterString "editable") book_world
    = (Pending, book_world)
  ∧ getEditionFields "toString" (FilterString "editable") book_world
    = (Resolved (mkEditionResult ∅ JUndefined "toString"), book_world).
Proof.
  assert (getConfig book_world = Resolved book_config) as H1 by reflexivity.
  assert (entities book_config !! "ghost" = None) as H2 by (vm_compute; reflexivity).
  assert (entities book_config !! "toString" = None) as H3
    by (vm_compute; reflexivity).
  split; [by repeat split|]. split.
  - exact (getEditionFields_unknown_entity_pending book_world "ghost"
             (FilterString "editable") book_config H1 H2).
  - exact (getEditionFields_unknown_entity_pending book_world "toString"
             (FilterString "editable") book_config H1 H3).
Defined.

(** X3.  When the request of [getOne] or [getAll] is rejected, the operation
    rejects with the same reason; the request has been issued with the
    configured base URL in full-response mode ([getAll] asking for the page
    that [parseInt] reads from its argument, or page 1), and the
    configuration is as it was. *)
Theorem read_failure_is_passed_on
    (backend : Backend) (w : World) (entityName : string) (config : Config)
    (ec : EntityConfig) (reason : JsVal) :
  getConfig w = Resolved config →
  entities config !! entityName = Some ec →
  (∀ entityId,
     answerGet backend
       (mkRequest (baseApiUrl (global config)) true (GetOne entityName entityId))
     = Rejected reason →
     getOne backend entityName entityId w
     = (Rejected reason,
        mkWorld (configPromise w) (baseApiUrl (global config)) true
          (sent w ++ [mkRequest (baseApiUrl (global config)) true
                        (GetOne entityName entityId)])))
  ∧ (∀ page size,
     size = (if truthy (per_page (global config))
             then per_page (global config) else JNum 30) →
     answerGetList backend
       (mkRequest (baseApiUrl (global config)) true
          (GetList entityName (default 1 (parseInt <$> page)) size))
     = Rejected reason →
     getAll backend entityName page w
     = (Rejected reason,
        mkWorld (configPromise w) (baseApiUrl (global config)) true
          (sent w ++ [mkRequest (baseApiUrl (global config)) true
                        (GetList entityName (default 1 (parseInt <$> page)) size)]))).
Proof.
  intros Hconfig Hknown. split.
  - intros entityId Hget. run_operation.
    rewrite Hconfig, (entity_lookup_own _ _ _ Hknown). simpl.
    rewrite Hget. simpl. rewrite <- Hconfig. reflexivity.
  - intros page size -> Hlist.
    pose proof (getAll_run backend w entityName config Hconfig ec Hknown page) as Hrun.
    simpl in Hrun. rewrite Hrun, Hlist. done.
Qed.

Lemma read_failure_is_passed_on_offline :
  (getConfig book_world = Resolved book_config
   ∧ entities book_config !! "book" = Some book_entity
   ∧ answerGet offline_backend
       (mkRequest (baseApiUrl (global book_config)) true (GetOne "book" (JNum 5)))
     = Rejected (JRef 503))
  ∧ getOne offline_backend "book" (JNum 5) book_world
    = (Rejected (JRef 503),
       mkWorld (Resolved book_config) (JStr "http://localhost:3000") true
         [mkRequest (JStr "http://localhost:3000") true (GetOne "book" (JNum 5))]).
Proof.
  assert (getConfig book_world = Resolved book_config) as H1 by reflexivity.
  assert (entities book_config !! "book" = Some book_entity) as H2
    by (vm_compute; reflexivity).
  assert (answerGet offline_backend
            (mkRequest (baseApiUrl (global book_config)) true (GetOne "book" (JNum 5)))
          = Rejected (JRef 503)) as H3 by reflexivity.
  split; [by repeat split|].
  exact (proj1 (read_failure_is_passed_on offline_backend book_world "book"
                  book_config book_entity (JRef 503) H1 H2) (JNum 5) H3).
Defined.

(** X4.  For an entity of the configuration, [createOne] and [updateOne]
    issue exactly one request, a POST respectively a PUT of the entity they
    were given, with the configured base URL, and their promise ends as the
    request does: resolved with the reply or rejected with the request's
    reason.  Neither touches the full-response flag or the configuration. *)
Theorem write_operations_settle_as_their_request
    (backend : Backend) (w : World) (entityName : string) (entity : Entity)
    (config : Config) (ec : EntityConfig) :
  getConfig w = Resolved config →
  entities config !! entityName = Some ec →
  let post := mkRequest (baseApiUrl (global config)) (fullResponse w)
                (Post entityName entity) in
  let put := mkRequest (baseApiUrl (global config)) (fullResponse w)
               (Put entityName entity) in
  createOne backend entityName entity w
  = (answerPost backend post,
     mkWorld (configPromise w) (baseApiUrl (global config)) (fullResponse w)
       (sent w ++ [post]))
  ∧ updateOne backend entityName entity w
    = (answerPut backend put,
       mkWorld (configPromise w) (baseApiUrl (global config)) (fullResponse w)
         (sent w ++ [put])).
Proof.
  intros Hconfig Hknown post put. split.
  - by rewrite (createOne_run backend w entityName config Hconfig ec Hknown).
  - by rewrite (updateOne_run backend w entityName config Hconfig ec Hknown).
Qed.

Lemma write_operations_settle_as_their_request_book :
  (getConfig book_world = Resolved book_config
   ∧ entities book_config !! "book" = Some book_entity)
  ∧ (createOne book_backend "book" book_record book_world).1 = Resolved (JRef 1)
  ∧ (updateOne offline_backend "book" book_record book_world).1 = Rejected (JRef 503)
  ∧ sent (updateOne offline_backend "book" book_record book_world).2
    = [mkRequest (JStr "http://localhost:3000") false (Put "book" book_record)].
Proof.
  assert (getConfig book_world = Resolved book_config) as H1 by reflexivity.
  assert (entities book_config !! "book" = Some book_entity) as H2
    by (vm_compute; reflexivity).
  split; [by split|].
  pose proof (proj1 (write_operations_settle_as_their_request book_backend book_world
                       "book" book_record book_config book_entity H1 H2)) as Hpost.
  pose proof (proj2 (write_operations_settle_as_their_request offline_backend book_world
                       "book" book_record book_config book_entity H1 H2)) as Hput.
  rewrite Hpost, Hput. repeat split.
Defined.

(** *** The REST client *)

(** X5.  An operation issues at most one request, and a request is always
    issued with the base URL of the loaded configuration: [getOne] a GET of
    the entity, [createOne] a POST, [updateOne] a PUT and [deleteOne] a
    DELETE of what they were given, [getAll] a GET of the list at the page
    that [parseInt] reads from its argument (page 1 without one);
    [getEditionFields] never issues a request nor touches the client. *)
Theorem operations_issue_at_most_one_request (backend : Backend) (w : World) :
  (∀ entityName entityId,
     issues_only (GetOne entityName entityId) w
       (getOne backend entityName entityId w).2)
  ∧ (∀ entityName filterType, (getEditionFields entityName filterType w).2 = w)
  ∧ (∀ entityName entity,
     issues_only (Post entityName entity) w (createOne backend entityName entity w).2)
  ∧ (∀ entityName entity,
     issues_only (Put entityName entity) w (updateOne backend entityName entity w).2)
  ∧ (∀ entityName entityId,
     issues_only (Remove entityName entityId) w
       (deleteOne backend entityName entityId w).2)
  ∧ (∀ entityName page,
     ∃ size, issues_only (GetList entityName (default 1 (parseInt <$> page)) size) w
               (getAll backend entityName page w).2).
Proof.
  assert (∀ (R : Type) (run : World → Outcome R * World) call,
            (getConfig w = Pending → run w = (Pending, w)) →
            (∀ r, getConfig w = Rejected r → run w = (Rejected r, w)) →
            (∀ config, getConfig w = Resolved config →
               (run w).2 = w
               ∨ baseUrl (run w).2 = baseApiUrl (global config)
                 ∧ sent (run w).2
                   = sent w ++ [mkRequest (baseApiUrl (global config))
                                  (fullResponse (run w).2) call]) →
            issues_only call w (run w).2) as Hcases.
  { intros R run call Hpending Hrejected Hloaded. unfold issues_only.
    destruct (getConfig w) as [|config|r] eqn:Hconfig.
    - left. by rewrite Hpending.
    - destruct (Hloaded config eq_refl) as [Hsame|Hsent]; [by left|].
      right. by exists config.
    - left. by rewrite (Hrejected r). }
  pose proof (operations_config_rejected backend w) as Hrejected.
  pose proof (operations_config_pending backend w) as Hpending.
  split; [|split; [|split; [|split; [|split]]]].
  - intros entityName entityId.
    apply (Hcases _ (getOne backend entityName entityId)).
    + intros Hp. by apply Hpending.
    + intros r Hr. by apply (Hrejected r Hr).
    + intros config Hconfig.
      destruct (entity_lookup (entities config) entityName) as [found|] eqn:Hfound.
      * right.
        destruct (getOne_found_client backend w entityName config Hconfig found Hfound
                    entityId) as (-> & -> & ->). done.
      * left. by rewrite (getOne_not_found backend w entityName config Hconfig Hfound).
  - intros entityName filterType. run_operation.
    destruct (configPromise w) as [|config|r]; [by destruct w| |by destruct w].
    destruct (entity_lookup (entities config) entityName); by destruct w.
  - intros entityName entity.
    apply (Hcases _ (createOne backend entityName entity)).
    + intros Hp. by apply Hpending.
    + intros r Hr. by apply (Hrejected r Hr).
    + intros config Hconfig.
      destruct (entity_lookup (entities config) entityName) as [found|] eqn:Hfound.
      * right.
        by rewrite (createOne_found backend w entityName config Hconfig found Hfound).
      * left.
        by rewrite (createOne_not_found backend w entityName config Hconfig Hfound).
  - intros entityName entity.
    apply (Hcases _ (updateOne backend entityName entity)).
    + intros Hp. by apply Hpending.
    + intros r Hr. by apply (Hrejected r Hr).
    + intros config Hconfig.
      destruct (entity_lookup (entities config) entityName) as [found|] eqn:Hfound.
      * right.
        by rewrite (updateOne_found backend w entityName config Hconfig found Hfound).
      * left.
        by rewrite (updateOne_not_found backend w entityName config Hconfig Hfound).
  - intros entityName entityId.
    apply (Hcases _ (deleteOne backend entityName entityId)).
    + intros Hp. by apply Hpending.
    + intros r Hr. by apply (Hrejected r Hr).
    + intros config Hconfig. right.
      by rewrite (deleteOne_run backend w entityName config Hconfig).
  - intros entityName page.
    destruct (getConfig w) as [|config|r] eqn:Hconfig.
    + exists JUndefined. left. by rewrite (proj2 (proj2 (proj2 (proj2 (proj2
        (Hpending eq_refl)))))).
    + destruct (entity_lookup (entities config) entityName) as [found|] eqn:Hfound.
      * exists (if truthy (per_page (global config))
                then per_page (global config) else JNum 30).
        right. exists config. split; [done|].
        pose proof (getAll_found backend w entityName config Hconfig found Hfound page)
          as Hrun.
        simpl in Hrun. by rewrite Hrun.
      * exists JUndefined. left.
        by rewrite (getAll_not_found backend w entityName config Hconfig Hfound).
    + exists JUndefined. left. by rewrite (proj2 (proj2 (proj2 (proj2 (proj2
        (Hrejected r eq_refl)))))).
Qed.

(** X6.  No operation switches the full-response mode of the client off:
    [getEditionFields], [createOne], [updateOne] and [deleteOne] leave the
    flag as it is, and [getOne] and [getAll] leave it switched on unless they
    leave the whole world as it is. *)
Theorem full_response_mode_is_never_left (backend : Backend) (w : World) :
  (∀ entityName filterType,
     fullResponse (getEditionFields entityName filterType w).2 = fullResponse w)
  ∧ (∀ entityName entity,
     fullResponse (createOne backend entityName entity w).2 = fullResponse w)
  ∧ (∀ entityName entity,
     fullResponse (updateOne backend entityName entity w).2 = fullResponse w)
  ∧ (∀ entityName entityId,
     fullResponse (deleteOne backend entityName entityId w).2 = fullResponse w)
  ∧ (∀ entityName entityId,
     fullResponse (getOne backend entityName entityId w).2 = true
     ∨ (getOne backend entityName entityId w).2 = w)
  ∧ (∀ entityName page,
     fullResponse (getAll backend entityName page w).2 = true
     ∨ (getAll backend entityName page w).2 = w).
Proof.
  pose proof (operations_config_rejected backend w) as Hrejected.
  pose proof (operations_config_pending backend w) as Hpending.
  destruct (getConfig w) as [|config|r] eqn:Hconfig.
  - destruct (Hpending eq_refl) as (H1 & H2 & H3 & H4 & H5 & H6).
    repeat split; intros; rewrite ?H1, ?H2, ?H3, ?H4, ?H5, ?H6; auto.
  - split; [|split; [|split; [|split; [|split]]]].
    + intros entityName filterType. run_operation. rewrite Hconfig.
      destruct (entity_lookup (entities config) entityName); by destruct w.
    + intros entityName entity.
      destruct (entity_lookup (entities config) entityName) as [found|] eqn:Hfound.
      * by rewrite (createOne_found backend w entityName config Hconfig found Hfound).
      * by rewrite (createOne_not_found backend w entityName config Hconfig Hfound).
    + intros entityName entity.
      destruct (entity_lookup (entities config) entityName) as [found|] eqn:Hfound.
      * by rewrite (updateOne_found backend w entityName config Hconfig found Hfound).
      * by rewrite (updateOne_not_found backend w entityName config Hconfig Hfound).
    + intros entityName entityId.
      by rewrite (deleteOne_run backend w entityName config Hconfig).
    + intros entityName entityId.
      destruct (entity_lookup (entities config) entityName) as [found|] eqn:Hfound.
      * left.
        apply (getOne_found_client backend w entityName config Hconfig found Hfound).
      * right. by rewrite (getOne_not_found backend w entityName config Hconfig Hfound).
    + intros entityName page.
      destruct (entity_lookup (entities config) entityName) as [found|] eqn:Hfound.
      * left.
        pose proof (getAll_found backend w entityName config Hconfig found Hfound page)
          as Hrun.
        simpl in Hrun. by rewrite Hrun.
      * right. by rewrite (getAll_not_found backend w entityName config Hconfig Hfound).
  - destruct (Hrejected r eq_refl) as (H1 & H2 & H3 & H4 & H5 & H6).
    repeat split; intros; rewrite ?H1, ?H2, ?H3, ?H4, ?H5, ?H6; auto.
Qed.

(** X7.  The full-response mode that [getAll] switches on is still on for a
    write that follows: after a [getAll] on an entity of the configuration,
    [createOne] issues its POST in full-response mode, whatever the mode was
    before the two calls and whatever page was asked for. *)
Theorem write_after_read_is_in_full_response_mode
    (backend backend' : Backend) (w : World) (config : Config)
    (listed : string) (page : option Z) (ec : EntityConfig)
    (created : string) (entity : Entity) (ec' : EntityConfig) :
  getConfig w = Resolved config →
  entities config !! listed = Some ec →
  entities config !! created = Some ec' →
  let size := if truthy (per_page (global config))
              then per_page (global config) else JNum 30 in
  let w1 := (getAll backend listed page w).2 in
  fullResponse w1 = true
  ∧ sent (createOne backend' created entity w1).2
    = sent w ++ [mkRequest (baseApiUrl (global config)) true
                   (GetList listed (default 1 (parseInt <$> page)) size);
                 mkRequest (baseApiUrl (global config)) true (Post created entity)].
Proof.
  intros Hconfig Hlisted Hcreated size w1.
  pose proof (getAll_run backend w listed config Hconfig ec Hlisted page) as Hrun.
  simpl in Hrun.
  assert (w1 = after_request (baseApiUrl (global config)) true
                 (GetList listed (default 1 (parseInt <$> page)) size) w) as Hw1.
  { unfold w1. by rewrite Hrun. }
  rewrite Hw1. split; [done|].
  rewrite (createOne_run backend'
             (after_request (baseApiUrl (global config)) true
                (GetList listed (default 1 (parseInt <$> page)) size) w)
             created config Hconfig ec' Hcreated).
  simpl. by rewrite <- app_assoc.
Qed.

Lemma write_after_read_is_in_full_response_mode_book :
  (getConfig book_world = Resolved book_config
   ∧ entities book_config !! "author" = Some author_entity
   ∧ entities book_config !! "book" = Some book_entity)
  ∧ fullResponse book_world = false
  ∧ fullResponse (getAll book_backend "author" None book_world).2 = true
  ∧ sent (createOne book_backend "book" book_record
            (getAll book_backend "author" None book_world).2).2
    = [mkRequest (JStr "http://localhost:3000") true (GetList "author" 1 (JNum 30));
       mkRequest (JStr "http://localhost:3000") true (Post "book" book_record)].
Proof.
  assert (getConfig book_world = Resolved book_config) as H1 by reflexivity.
  assert (entities book_config !! "author" = Some author_entity) as H2
    by (vm_compute; reflexivity).
  assert (entities book_config !! "book" = Some book_entity) as H3
    by (vm_compute; reflexivity).
  split; [by repeat split|]. split; [reflexivity|].
  exact (write_after_read_is_in_full_response_mode book_backend book_backend book_world
           book_config "author" None author_entity "book" book_record book_entity
           H1 H2 H3).
Defined.

(** *** Calls that follow a getOne *)

(** The world after a successful [getOne]: the entity holds the merged
    fields, everything else of the configuration is as before. *)
Lemma getOne_leaves (backend : Backend) (w : World) (entityName : string)
    (entityId : JsVal) (config : Config) (ec : EntityConfig)
    (response : Response Entity) :
  getConfig w = Resolved config →
  entities config !! entityName = Some ec →
  answerGet backend
    (mkRequest (baseApiUrl (global config)) true (GetOne entityName entityId))
  = Resolved response →
  let config1 :=
    mkConfig (global config)
      (<[entityName := mkEntityConfig (label ec)
                         (merged_fields (data response) (fields ec))]>
         (entities config)) in
  getConfig (getOne backend entityName entityId w).2 = Resolved config1
  ∧ entities config1 !! entityName
    = Some (mkEntityConfig (label ec) (merged_fields (data response) (fields ec))).
Proof.
  intros Hconfig Hknown Hget config1. split.
  - rewrite (getOne_run backend w entityName config Hconfig ec Hknown
               entityId response Hget). simpl.
    by apply getConfig_store_fields.
  - unfold config1. simpl. by rewrite lookup_insert_eq.
Qed.

Lemma getOne_then_getOne (backend1 backend2 : Backend) (w : World)
    (entityName : string) (id1 id2 : JsVal) (config : Config) (ec : EntityConfig)
    (response1 response2 : Response Entity) :
  getConfig w = Resolved config →
  entities config !! entityName = Some ec →
  answerGet backend1
    (mkRequest (baseApiUrl (global config)) true (GetOne entityName id1))
  = Resolved response1 →
  answerGet backend2
    (mkRequest (baseApiUrl (global config)) true (GetOne entityName id2))
  = Resolved response2 →
  let w1 := (getOne backend1 entityName id1 w).2 in
  let fs2 := merged_fields (data response2)
               (merged_fields (data response1) (fields ec)) in
  (getOne backend2 entityName id2 w1).1
  = Resolved (mkOneResult (Some fs2) (label ec) entityName id2)
  ∧ getConfig (getOne backend2 entityName id2 w1).2
    = Resolved (mkConfig (global config)
                  (<[entityName := mkEntityConfig (label ec) fs2]> (entities config))).
Proof.
  intros Hconfig Hknown Hget1 Hget2 w1 fs2.
  destruct (getOne_leaves backend1 w entityName id1 config ec response1
              Hconfig Hknown Hget1) as [Hconfig1 Hknown1].
  fold w1 in Hconfig1.
  split.
  - by rewrite (getOne_run backend2 w1 entityName _ Hconfig1 _ Hknown1
                  id2 response2 Hget2).
  - destruct (getOne_leaves backend2 w1 entityName id2 _ _ response2
                Hconfig1 Hknown1 Hget2) as [Hconfig2 _].
    rewrite Hconfig2. simpl. by rewrite insert_insert_eq.
Qed.

(** X8.  Fetching the same record twice changes nothing the second time:
    the second [getOne] resolves with what the first one resolved with and
    leaves the configuration as the first one left it. *)
Theorem getOne_again_changes_nothing
    (backend : Backend) (w : World) (entityName : string) (entityId : JsVal)
    (config : Config) (ec : EntityConfig) (response : Response Entity) :
  getConfig w = Resolved config →
  entities config !! entityName = Some ec →
  answerGet backend
    (mkRequest (baseApiUrl (global config)) true (GetOne entityName entityId))
  = Resolved response →
  let first := getOne backend entityName entityId w in
  let second := getOne backend entityName entityId first.2 in
  second.1 = first.1 ∧ getConfig second.2 = getConfig first.2.
Proof.
  intros Hconfig Hknown Hget first second.
  destruct (getOne_then_getOne backend backend w entityName entityId entityId
              config ec response response Hconfig Hknown Hget Hget) as [Hres Hcfg].
  destruct (getOne_leaves backend w entityName entityId config ec response
              Hconfig Hknown Hget) as [Hconfig1 _].
  unfold second, first. rewrite Hres, Hcfg, Hconfig1.
  rewrite (getOne_run backend w entityName config Hconfig ec Hknown
             entityId response Hget). simpl.
  by rewrite merged_fields_idempotent.
Qed.

Lemma getOne_again_changes_nothing_book :
  (getConfig book_world = Resolved book_config
   ∧ entities book_config !! "book" = Some book_entity
   ∧ answerGet book_backend
       (mkRequest (baseApiUrl (global book_config)) true (GetOne "book" (JNum 5)))
     = Resolved (mkResponse book_record (count_header "1")))
  ∧ (getOne book_backend "book" (JNum 5)
       (getOne book_backend "book" (JNum 5) book_world).2).1
    = (getOne book_backend "book" (JNum 5) book_world).1
  ∧ getConfig (getOne book_backend "book" (JNum 5)
                 (getOne book_backend "book" (JNum 5) book_world).2).2
    = getConfig (getOne book_backend "book" (JNum 5) book_world).2.
Proof.
  assert (getConfig book_world = Resolved book_config) as H1 by reflexivity.
  assert (entities book_config !! "book" = Some book_entity) as H2
    by (vm_compute; reflexivity).
  assert (answerGet book_backend
            (mkRequest (baseApiUrl (global book_config)) true (GetOne "book" (JNum 5)))
          = Resolved (mkResponse book_record (count_header "1"))) as H3 by reflexivity.
  split; [by repeat split|].
  exact (getOne_again_changes_nothing book_backend book_world "book" (JNum 5)
           book_config book_entity _ H1 H2 H3).
Defined.

(** X9.  A value written by an earlier [getOne] is still shown by a later
    one: when the first record gives a value under the name of an
    edition-tagged field and reading that name on the second record yields
    undefined, the second [getOne] resolves with that field carrying the
    value of the first record. *)
Theorem getOne_shows_value_of_earlier_record
    (backend1 backend2 : Backend) (w : World) (entityName : string)
    (id1 id2 : JsVal) (config : Config) (ec : EntityConfig)
    (response1 response2 : Response Entity)
    (fieldName : string) (field : FieldConfig) :
  getConfig w = Resolved config →
  entities config !! entityName = Some ec →
  answerGet backend1
    (mkRequest (baseApiUrl (global config)) true (GetOne entityName id1))
  = Resolved response1 →
  answerGet backend2
    (mkRequest (baseApiUrl (global config)) true (GetOne entityName id2))
  = Resolved response2 →
  fields ec !! fieldName = Some field →
  has_edition field →
  prop (data response1) fieldName ≠ JUndefined →
  prop (data response2) fieldName = JUndefined →
  ∃ (res : OneResult) (fs : gmap string FieldConfig),
    (getOne backend2 entityName id2 (getOne backend1 entityName id1 w).2).1
    = Resolved res
    ∧ one_entityId res = id2
    ∧ one_fields res = Some fs
    ∧ fs !! fieldName
      = Some (<["value" := prop (data response1) fieldName]> field).
Proof.
  intros Hconfig Hknown Hget1 Hget2 Hfield Hed Hdef1 Hundef2.
  destruct (getOne_then_getOne backend1 backend2 w entityName id1 id2
              config ec response1 response2 Hconfig Hknown Hget1 Hget2) as [Hres _].
  eexists _, _. split; [exact Hres|]. simpl. split; [done|]. split; [reflexivity|].
  rewrite !merged_fields_lookup, Hfield. simpl. f_equal.
  unfold merged at 1. rewrite decide_False by (by intros [_ ?]).
  unfold merged. by rewrite decide_True.
Qed.

Lemma getOne_shows_value_of_earlier_record_book :
  (getConfig book_world = Resolved book_config
   ∧ entities book_config !! "book" = Some book_entity
   ∧ answerGet book_backend
       (mkRequest (baseApiUrl (global book_config)) true (GetOne "book" (JNum 5)))
     = Resolved (mkResponse book_record (count_header "1"))
   ∧ answerGet untitled_backend
       (mkRequest (baseApiUrl (global book_config)) true (GetOne "book" (JNum 6)))
     = Resolved (mkResponse untitled_record (count_header "1"))
   ∧ fields book_entity !! "title" = Some {[ "edition" := JStr "editable" ]}
   ∧ has_edition {[ "edition" := JStr "editable" ]}
   ∧ prop book_record "title" ≠ JUndefined
   ∧ prop untitled_record "title" = JUndefined)
  ∧ ∃ res : OneResult,
      (getOne untitled_backend "book" (JNum 6)
         (getOne book_backend "book" (JNum 5) book_world).2).1 = Resolved res
      ∧ one_entityId res = JNum 6
      ∧ (one_fields res ≫= (.!! "title"))
        = Some {[ "edition" := JStr "editable"; "value" := JStr "Foo" ]}.
Proof.
  assert (getConfig book_world = Resolved book_config) as H1 by reflexivity.
  assert (entities book_config !! "book" = Some book_entity) as H2
    by (vm_compute; reflexivity).
  assert (answerGet book_backend
            (mkRequest (baseApiUrl (global book_config)) true (GetOne "book" (JNum 5)))
          = Resolved (mkResponse book_record (count_header "1"))) as H3 by reflexivity.
  assert (answerGet untitled_backend
            (mkRequest (baseApiUrl (global book_config)) true (GetOne "book" (JNum 6)))
          = Resolved (mkResponse untitled_record (count_header "1"))) as H4
    by reflexivity.
  assert (fields book_entity !! "title" = Some {[ "edition" := JStr "editable" ]}) as H5
    by (vm_compute; reflexivity).
  assert (has_edition {[ "edition" := JStr "editable" ]}) as H6
    by (vm_compute; discriminate).
  assert (prop book_record "title" ≠ JUndefined) as H7 by (vm_compute; discriminate).
  assert (prop untitled_record "title" = JUndefined) as H8 by (vm_compute; reflexivity).
  split; [by repeat split|].
  destruct (getOne_shows_value_of_earlier_record book_backend untitled_backend
              book_world "book" (JNum 5) (JNum 6) book_config book_entity _ _
              "title" _ H1 H2 H3 H4 H5 H6 H7 H8)
    as (res & fs & Hres & Hid & Hsome & Htitle).
  exists res. split; [exact Hres|]. split; [exact Hid|].
  rewrite Hsome. simpl. rewrite Htitle. vm_compute. reflexivity.
Defined.

(** X10.  After a successful [getOne], [getEditionFields] on the same entity
    selects the same fields as it would have before, under any filter, and
    returns each of them with the record merged into it: the values of the
    record fetched last come along with the edition metadata. *)
Theorem getEditionFields_after_getOne
    (backend : Backend) (w : World) (entityName : string) (entityId : JsVal)
    (filterType : FilterType) (config : Config) (ec : EntityConfig)
    (response : Response Entity) (before : EditionResult) :
  getConfig w = Resolved config →
  entities config !! entityName = Some ec →
  answerGet backend
    (mkRequest (baseApiUrl (global config)) true (GetOne entityName entityId))
  = Resolved response →
  (getEditionFields entityName filterType w).1 = Resolved before →
  (getEditionFields entityName filterType
     (getOne backend entityName entityId w).2).1
  = Resolved (mkEditionResult
                (merged_fields (data response) (edition_fields before))
                (edition_entityLabel before) (edition_entityName before))
  ∧ dom (merged_fields (data response) (edition_fields before))
    = dom (edition_fields before).
Proof.
  intros Hconfig Hknown Hget Hbefore.
  rewrite (getEditionFields_run w entityName config Hconfig ec Hknown) in Hbefore.
  injection Hbefore as <-. simpl.
  destruct (getOne_leaves backend w entityName entityId config ec response
              Hconfig Hknown Hget) as [Hconfig1 Hknown1].
  rewrite (getEditionFields_run _ entityName _ Hconfig1 _ Hknown1). simpl.
  rewrite filterEditionFields_merged_fields. split; [done|].
  apply dom_imap_L. intros k. rewrite elem_of_dom. unfold is_Some.
  split; [intros [f Hf]; exists f; eauto | intros [f [Hf _]]; eauto].
Qed.

Lemma getEditionFields_after_getOne_book :
  (getConfig book_world = Resolved book_config
   ∧ entities book_config !! "book" = Some book_entity
   ∧ answerGet book_backend
       (mkRequest (baseApiUrl (global book_config)) true (GetOne "book" (JNum 5)))
     = Resolved (mkResponse book_record (count_header "1"))
   ∧ (getEditionFields "book" (FilterString "editable") book_world).1
     = Resolved (mkEditionResult {[ "title" := {[ "edition" := JStr "editable" ]} ]}
                   (JStr "Books") "book"))
  ∧ (getEditionFields "book" (FilterString "editable")
       (getOne book_backend "book" (JNum 5) book_world).2).1
    = Resolved (mkEditionResult
                  {[ "title" := {[ "edition" := JStr "editable";
                                   "value" := JStr "Foo" ]} ]}
                  (JStr "Books") "book").
Proof.
  assert (getConfig book_world = Resolved book_config) as H1 by reflexivity.
  assert (entities book_config !! "book" = Some book_entity) as H2
    by (vm_compute; reflexivity).
  assert (answerGet book_backend
            (mkRequest (baseApiUrl (global book_config)) true (GetOne "book" (JNum 5)))
          = Resolved (mkResponse book_record (count_header "1"))) as H3 by reflexivity.
  assert ((getEditionFields "book" (FilterString "editable") book_world).1
          = Resolved (mkEditionResult {[ "title" := {[ "edition" := JStr "editable" ]} ]}
                        (JStr "Books") "book")) as H4 by (vm_compute; reflexivity).
  split; [by repeat split|].
  rewrite (proj1 (getEditionFields_after_getOne book_backend book_world "book" (JNum 5)
                    (FilterString "editable") book_config book_entity _ _
                    H1 H2 H3 H4)).
  vm_compute. reflexivity.
Defined.

(** X11.  When the fetched record gives nothing under the name of any
    edition-tagged field (reading the name on the record yields undefined),
    [getOne] resolves with the fields exactly as the configuration has them
    and writes nothing to the configuration. *)
Theorem getOne_record_without_edition_fields
    (backend : Backend) (w : World) (entityName : string) (entityId : JsVal)
    (config : Config) (ec : EntityConfig) (response : Response Entity) :
  getConfig w = Resolved config →
  entities config !! entityName = Some ec →
  answerGet backend
    (mkRequest (baseApiUrl (global config)) true (GetOne entityName entityId))
  = Resolved response →
  map_Forall (λ fieldName field,
                has_edition field → prop (data response) fieldName = JUndefined)
    (fields ec) →
  (getOne backend entityName entityId w).1
  = Resolved (mkOneResult (Some (fields ec)) (label ec) entityName entityId)
  ∧ getConfig (getOne backend entityName entityId w).2 = getConfig w.
Proof.
  intros Hconfig Hknown Hget Hnone.
  assert (merged_fields (data response) (fields ec) = fields ec) as Hsame.
  { apply map_eq. intros k. rewrite merged_fields_lookup.
    destruct (fields ec !! k) as [f|] eqn:Hf; simpl; [|done].
    unfold merged. rewrite decide_False; [done|].
    intros [Hed Hdef]. apply Hdef. by apply (Hnone k f). }
  destruct (getOne_leaves backend w entityName entityId config ec response
              Hconfig Hknown Hget) as [Hconfig1 _].
  rewrite Hconfig1, Hconfig.
  rewrite (getOne_run backend w entityName config Hconfig ec Hknown
             entityId response Hget). simpl.
  rewrite Hsame. split; [done|].
  f_equal. destruct config as [g es]. simpl in *. f_equal.
  apply insert_id. rewrite Hknown. by destruct ec.
Qed.

Lemma getOne_record_without_edition_fields_book :
  (getConfig book_world = Resolved book_config
   ∧ entities book_config !! "book" = Some book_entity
   ∧ answerGet untitled_backend
       (mkRequest (baseApiUrl (global book_config)) true (GetOne "book" (JNum 6)))
     = Resolved (mkResponse untitled_record (count_header "1"))
   ∧ map_Forall (λ fieldName field,
                   has_edition field → prop untitled_record fieldName = JUndefined)
       (fields book_entity))
  ∧ (getOne untitled_backend "book" (JNum 6) book_world).1
    = Resolved (mkOneResult (Some (fields book_entity)) (JStr "Books") "book" (JNum 6))
  ∧ getConfig (getOne untitled_backend "book" (JNum 6) book_world).2
    = Resolved book_config.
Proof.
  assert (getConfig book_world = Resolved book_config) as H1 by reflexivity.
  assert (entities book_config !! "book" = Some book_entity) as H2
    by (vm_compute; reflexivity).
  assert (answerGet untitled_backend
            (mkRequest (baseApiUrl (global book_config)) true (GetOne "book" (JNum 6)))
          = Resolved (mkResponse untitled_record (count_header "1"))) as H3
    by reflexivity.
  assert (map_Forall (λ fieldName field,
                        has_edition field → prop untitled_record fieldName = JUndefined)
            (fields book_entity)) as H4.
  { apply (bool_decide_unpack _). vm_compute. reflexivity. }
  split; [by repeat split|].
  exact (getOne_record_without_edition_fields untitled_backend book_world "book"
           (JNum 6) book_config book_entity _ H1 H2 H3 H4).
Defined.

(** *** The filter of getEditionFields *)

Lemma filters_of_array_any (tags : list JsVal) : filters_of (FilterArray tags) = tags.
Proof.
  destruct tags as [|tag tags]; [done|]. by apply filters_of_array.
Qed.

(** X12.  [filterEditionFields] returns fields of the mapping it was given,
    under their names and as they are, all of them edition-tagged; filtering
    its result again with the same filters gives the same result. *)
Theorem filterEditionFields_idempotent
    (fs : gmap string FieldConfig) (filters : list JsVal) :
  filterEditionFields fs filters ⊆ fs
  ∧ map_Forall (λ _ field, has_edition field) (filterEditionFields fs filters)
  ∧ filterEditionFields (filterEditionFields fs filters) filters
    = filterEditionFields fs filters.
Proof.
  split; [|split].
  - rewrite filterEditionFields_filter. apply map_filter_subseteq.
  - intros k f Hf. by apply filterEditionFields_lookup in Hf as (_ & Hed & _).
  - apply map_eq. intros k. apply option_eq. intros f.
    rewrite !filterEditionFields_lookup. split; [by intros [? _]|].
    intros (Hf & Hed & Hin). done.
Qed.

(** X13.  The list of filters counts as a set: two lists with the same
    elements, in whatever order and number, make [getEditionFields] return
    the same; and a single tag filters as the list of that one tag does. *)
Theorem getEditionFields_filter_is_a_set
    (w : World) (entityName : string) (tags1 tags2 : list JsVal) :
  (∀ tag, tag ∈ tags1 ↔ tag ∈ tags2) →
  getEditionFields entityName (FilterArray tags1) w
  = getEditionFields entityName (FilterArray tags2) w
  ∧ ∀ tag : string,
      getEditionFields entityName (FilterString tag) w
      = getEditionFields entityName (FilterArray [JStr tag]) w.
Proof.
  intros Hsame. split; [|done].
  assert (∀ fs, filterEditionFields fs tags1 = filterEditionFields fs tags2) as Hfilter.
  { intros fs. rewrite !filterEditionFields_filter.
    apply map_filter_ext. intros k f _. simpl.
    assert (tags1 = [] ↔ tags2 = []) as Hnil.
    { split; intros ->.
      - destruct tags2 as [|tag tags2]; [done|].
        exfalso. apply (elem_of_nil tag), Hsame, list_elem_of_here.
      - destruct tags1 as [|tag tags1]; [done|].
        exfalso. apply (elem_of_nil tag), Hsame, list_elem_of_here. }
    rewrite Hnil, (Hsame (prop f "edition")). done. }
  unfold getEditionFields. rewrite !filters_of_array_any.
  unfold then_, q_reject, reject_cb.
  destruct (getConfig w) as [|config|r]; [done| |done].
  destruct (entity_lookup (entities config) entityName) as [found|]; [|done].
  by rewrite Hfilter.
Qed.

Lemma getEditionFields_filter_is_a_set_author :
  (∀ tag, tag ∈ [JStr "read-only"; JStr "editable"]
          ↔ tag ∈ [JStr "editable"; JStr "read-only"; JStr "editable"])
  ∧ getEditionFields "author" (FilterArray [JStr "read-only"; JStr "editable"]) book_world
    = getEditionFields "author"
        (FilterArray [JStr "editable"; JStr "read-only"; JStr "editable"]) book_world.
Proof.
  assert (∀ tag, tag ∈ [JStr "read-only"; JStr "editable"]
                 ↔ tag ∈ [JStr "editable"; JStr "read-only"; JStr "editable"]) as H1.
  { intros tag. rewrite !elem_of_cons. split.
    - intros [->|[->|Hnil]]; [right; by left | by left | by apply elem_of_nil in Hnil].
    - intros [->|[->|[->|Hnil]]];
        [right; by left | by left | right; by left | by apply elem_of_nil in Hnil]. }
  split; [exact H1|].
  exact (proj1 (getEditionFields_filter_is_a_set book_world "author" _ _ H1)).
Defined.

(** X14.  A filter only restricts: whatever the filter, the fields
    [getEditionFields] resolves with are among those it resolves with
    without a filter, which are among the fields of the entity; and a
    non-empty list of tags selects no more than any list that contains its
    tags. *)
Theorem getEditionFields_filter_only_restricts
    (w : World) (entityName : string) (filterType : FilterType)
    (config : Config) (ec : EntityConfig) :
  getConfig w = Resolved config →
  entities config !! entityName = Some ec →
  (∃ selected all : EditionResult,
     (getEditionFields entityName filterType w).1 = Resolved selected
     ∧ (getEditionFields entityName NoFilter w).1 = Resolved all
     ∧ edition_fields selected ⊆ edition_fields all
     ∧ edition_fields all ⊆ fields ec)
  ∧ ∀ (tags1 tags2 : list JsVal) (less more : EditionResult),
      tags1 ≠ [] → tags1 ⊆ tags2 →
      (getEditionFields entityName (FilterArray tags1) w).1 = Resolved less →
      (getEditionFields entityName (FilterArray tags2) w).1 = Resolved more →
      edition_fields less ⊆ edition_fields more.
Proof.
  intros Hconfig Hknown. split.
  - rewrite !(getEditionFields_run w entityName config Hconfig ec Hknown).
    eexists _, _. split; [reflexivity|]. split; [reflexivity|]. simpl. split.
    + apply map_subseteq_spec. intros k f.
      rewrite !filterEditionFields_lookup. intros (Hf & Hed & _).
      split; [done|]. split; [done | by left].
    + rewrite filterEditionFields_filter. apply map_filter_subseteq.
  - intros tags1 tags2 less more Hne Hsub.
    rewrite !(getEditionFields_run w entityName config Hconfig ec Hknown).
    rewrite !filters_of_array_any. intros Hless Hmore.
    injection Hless as <-. injection Hmore as <-. simpl.
    apply map_subseteq_spec. intros k f.
    rewrite !filterEditionFields_lookup. intros (Hf & Hed & [Hnil|Hin]); [done|].
    split; [done|]. split; [done|]. right. by apply Hsub.
Qed.

Lemma getEditionFields_filter_only_restricts_author :
  (getConfig book_world = Resolved book_config
   ∧ entities book_config !! "author" = Some author_entity)
  ∧ ∃ selected all : EditionResult,
      (getEditionFields "author" (FilterString "read-only") book_world).1
      = Resolved selected
      ∧ (getEditionFields "author" NoFilter book_world).1 = Resolved all
      ∧ edition_fields selected ⊆ edition_fields all
      ∧ edition_fields all ⊆ fields author_entity.
Proof.
  assert (getConfig book_world = Resolved book_config) as H1 by reflexivity.
  assert (entities book_config !! "author" = Some author_entity) as H2
    by (vm_compute; reflexivity).
  split; [by split|].
  exact (proj1 (getEditionFields_filter_only_restricts book_world "author"
                  (FilterString "read-only") book_config author_entity H1 H2)).
Defined.

(** *** The page size of getAll *)

(** X15.  [getAll] never asks for a page size that is undefined, null,
    false, zero or the empty string, whatever page it asks for: a configured
    [per_page] of that kind is replaced by 30, and the page size it reports
    is the one it asked for. *)
Theorem getAll_page_size_is_truthy
    (backend : Backend) (w : World) (entityName : string) (page : option Z)
    (config : Config) (ec : EntityConfig) :
  getConfig w = Resolved config →
  entities config !! entityName = Some ec →
  ∃ size : JsVal,
    sent (getAll backend entityName page w).2
    = sent w ++ [mkRequest (baseApiUrl (global config)) true
                   (GetList entityName (default 1 (parseInt <$> page)) size)]
    ∧ truthy size = true
    ∧ (truthy (per_page (global config)) = false → size = JNum 30)
    ∧ ∀ res, (getAll backend entityName page w).1 = Resolved res →
             all_perPage res = size.
Proof.
  intros Hconfig Hknown.
  pose proof (getAll_run backend w entityName config Hconfig ec Hknown page) as Hrun.
  simpl in Hrun. rewrite Hrun.
  exists (if truthy (per_page (global config)) then per_page (global config)
          else JNum 30).
  split; [done|]. split; [|split].
  - by destruct (truthy (per_page (global config))) eqn:Hp.
  - by intros ->.
  - intros res. simpl.
    destruct (answerGetList backend _); simpl; [done| |done].
    by intros [= <-].
Qed.

Lemma getAll_page_size_is_truthy_unpaged :
  (getConfig unpaged_world
   = Resolved (mkConfig (mkGlobalConfig (JStr "http://localhost:3000") (JNum 0))
                 (entities book_config))
   ∧ entities book_config !! "book" = Some book_entity)
  ∧ ∃ size : JsVal,
      sent (getAll book_backend "book" (Some 3) unpaged_world).2
      = [mkRequest (JStr "http://localhost:3000") true (GetList "book" 3 size)]
      ∧ size = JNum 30.
Proof.
  assert (getConfig unpaged_world
          = Resolved (mkConfig (mkGlobalConfig (JStr "http://localhost:3000") (JNum 0))
                        (entities book_config))) as H1 by reflexivity.
  assert (entities book_config !! "book" = Some book_entity) as H2
    by (vm_compute; reflexivity).
  split; [by split|].
  destruct (getAll_page_size_is_truthy book_backend unpaged_world "book" (Some 3)
              _ book_entity H1 H2) as (size & Hsent & _ & Hdefault & _).
  exists size. split; [exact Hsent|]. by apply Hdefault.
Defined.

(** ** The date parser patch *)

(** X16.  The patched [parse] gives its input back untouched unless the
    input is a string and a format is given, in which case it is the
    original [parse]; so the original is consulted on strings with a format
    only, and patching a patched parser changes nothing. *)
Theorem decorate_dateParser_guards (delegate : DateParser) :
  (∀ input format,
     isString input = false ∨ truthy format = false →
     parse (decorate_dateParser delegate) input format = input)
  ∧ (∀ input format,
     isString input = true → truthy format = true →
     parse (decorate_dateParser delegate) input format = parse delegate input format)
  ∧ (∀ other : DateParser,
     (∀ s format, truthy format = true →
        parse other (JStr s) format = parse delegate (JStr s) format) →
     ∀ input format,
       parse (decorate_dateParser other) input format
       = parse (decorate_dateParser delegate) input format)
  ∧ (∀ input format,
     parse (decorate_dateParser (decorate_dateParser delegate)) input format
     = parse (decorate_dateParser delegate) input format).
Proof.
  split; [|split; [|split]].
  - intros input format [Hs|Hf]; simpl.
    + by rewrite Hs.
    + rewrite Hf. by rewrite orb_true_r.
  - intros input format Hs Hf. simpl. by rewrite Hs, Hf.
  - intros other Hagree input format. simpl.
    destruct (isString input) eqn:Hs; simpl; [|done].
    destruct (truthy format) eqn:Hf; simpl; [|done].
    destruct input; try discriminate Hs; [by apply Hagree|].
    unfold isString in Hs. simpl in Hs.
    destruct (String.eqb name "__proto__"); discriminate Hs.
  - intros input format. simpl.
    by destruct (negb (isString input) || negb (truthy format)).
Qed.

(** A Date object handed to the patched parser comes back as it is, and so
    does a string when no format is given. *)
Lemma decorate_dateParser_guards_date :
  (isString (JRef 7) = false ∨ truthy (JStr "yyyy-MM-dd") = false)
  ∧ parse (decorate_dateParser (mkDateParser (λ _ _, JNull))) (JRef 7)
      (JStr "yyyy-MM-dd") = JRef 7
  ∧ parse (decorate_dateParser (mkDateParser (λ _ _, JNull))) (JStr "2014-09-01")
      JUndefined = JStr "2014-09-01".
Proof.
  assert (isString (JRef 7) = false ∨ truthy (JStr "yyyy-MM-dd") = false) as H1
    by (left; reflexivity).
  split; [exact H1|]. split.
  - exact (proj1 (decorate_dateParser_guards (mkDateParser (λ _ _, JNull))) _ _ H1).
  - apply (proj1 (decorate_dateParser_guards (mkDateParser (λ _ _, JNull)))).
    right. reflexivity.
Defined.

(** ** deleteOne and the entity mapping *)

(** X17.  [deleteOne] never consults the entity mapping: with the
    configuration loaded it issues the DELETE of the name and id it was
    given and its promise ends as that request does, and it does exactly the
    same when the configuration has any other entity mapping. *)
Theorem deleteOne_ignores_entity_mapping
    (backend : Backend) (w : World) (entityName : string) (entityId : JsVal)
    (config : Config) (others : gmap string EntityConfig) :
  getConfig w = Resolved config →
  let request := mkRequest (baseApiUrl (global config)) (fullResponse w)
                   (Remove entityName entityId) in
  let w' := mkWorld (Resolved (mkConfig (global config) others))
              (baseUrl w) (fullResponse w) (sent w) in
  (deleteOne backend entityName entityId w).1 = answerRemove backend request
  ∧ (deleteOne backend entityName entityId w').1
    = (deleteOne backend entityName entityId w).1
  ∧ sent (deleteOne backend entityName entityId w').2
    = sent (deleteOne backend entityName entityId w).2
  ∧ fullResponse (deleteOne backend entityName entityId w).2 = fullResponse w.
Proof.
  intros Hconfig request w'.
  rewrite (deleteOne_run backend w entityName config Hconfig).
  rewrite (deleteOne_run backend w' entityName (mkConfig (global config) others)
             eq_refl).
  done.
Qed.

Lemma deleteOne_ignores_entity_mapping_book :
  getConfig book_world = Resolved book_config
  ∧ (deleteOne offline_backend "book" (JNum 5) book_world).1 = Rejected (JRef 503)
  ∧ (deleteOne offline_backend "book" (JNum 5)
       (mkWorld (Resolved (mkConfig (global book_config) ∅)) JUndefined false [])).1
    = (deleteOne offline_backend "book" (JNum 5) book_world).1.
Proof.
  assert (getConfig book_world = Resolved book_config) as H1 by reflexivity.
  split; [exact H1|].
  destruct (deleteOne_ignores_entity_mapping offline_backend book_world "book" (JNum 5)
              book_config ∅ H1) as (Hanswer & Hsame & _).
  split; [exact Hanswer | exact Hsame].
Defined.

(** ** Names inherited from Object.prototype *)


